(** * Jarvis voice assistant: command interpretation and dialogue loop

    A shallow embedding of [Main.py] ([VoiceAssistant]) and of
    [Ai_agent_module.py] ([AIClient._clean_response]).

    Python [str] values are modelled as [string]; a character is a code
    point below 256 (Latin-1), which is where [str.lower], [str.strip] and
    [str.split] are table-driven below.  Effects ([speak],
    [webbrowser.open], [time.sleep]) are recorded as a trace of events;
    logging is left out.  The outside world (recogniser, news service,
    AI service, clock, environment variables) is an explicit record. *)

From Stdlib Require Import Bool Arith Lia List.
From Stdlib Require Import Ascii String.
From Stdlib Require Import Numbers.DecimalString.
Import ListNotations.

Open Scope list_scope.
Open Scope string_scope.

(** ** Python string primitives *)

Module Py.

(** [bool(s)] for a [str]: the empty string is falsy. *)
Definition truthy (s : string) : bool :=
  match s with
  | EmptyString => false
  | String _ _ => true
  end.

(** [str.isspace] on one character below U+0100. *)
Definition isspace (c : ascii) : bool :=
  let n := nat_of_ascii c in
  (((9 <=? n) && (n <=? 13)) || ((28 <=? n) && (n <=? 32))
   || (n =? 133) || (n =? 160))%nat.

(** [str.lower] on one character below U+0100: A-Z, and the Latin-1
    capitals U+00C0..U+00DE except the multiplication sign U+00D7. *)
Definition lower_char (c : ascii) : ascii :=
  let n := nat_of_ascii c in
  if (((65 <=? n) && (n <=? 90))
      || ((192 <=? n) && (n <=? 222) && negb (n =? 215)))%nat
  then ascii_of_nat (n + 32)
  else c.

(** [s.lower()] *)
Fixpoint lower (s : string) : string :=
  match s with
  | EmptyString => EmptyString
  | String c t => String (lower_char c) (lower t)
  end.

(** [s.lstrip()] *)
Fixpoint lstrip (s : string) : string :=
  match s with
  | EmptyString => EmptyString
  | String c t => if isspace c then lstrip t else s
  end.

(** [s.rstrip()]: a character is dropped when it is white space and
    everything after it has been dropped. *)
Fixpoint rstrip (s : string) : string :=
  match s with
  | EmptyString => EmptyString
  | String c t =>
      match rstrip t with
      | EmptyString => if isspace c then EmptyString else String c EmptyString
      | r => String c r
      end
  end.

(** [s.strip()] *)
Definition strip (s : string) : string := rstrip (lstrip s).

(** [s.startswith(p)] *)
Fixpoint startswith (p s : string) : bool :=
  match p, s with
  | EmptyString, _ => true
  | String _ _, EmptyString => false
  | String a p', String b s' => Ascii.eqb a b && startswith p' s'
  end.

(** [sub in s] for two [str]: [sub] occurs in [s] as a contiguous run. *)
Fixpoint contains (sub s : string) : bool :=
  startswith sub s
  || match s with
     | EmptyString => false
     | String _ t => contains sub t
     end.

(** [s.endswith(p)] *)
Fixpoint endswith (p s : string) : bool :=
  String.eqb p s
  || match s with
     | EmptyString => false
     | String _ t => endswith p t
     end.

(** [s.replace(old, new)] for a non-empty [old]: the occurrences of
    [old] are replaced from left to right, without overlap.  [skip]
    counts the characters of a matched occurrence still to be passed. *)
Fixpoint replace_from (old new s : string) (skip : nat) : string :=
  match s with
  | EmptyString => EmptyString
  | String c t =>
      match skip with
      | S k => replace_from old new t k
      | O =>
          if startswith old s
          then new ++ replace_from old new t (String.length old - 1)
          else String c (replace_from old new t 0)
      end
  end.

Definition replace (old new s : string) : string :=
  replace_from old new s 0.

(** [s.split()]: the maximal runs of non-space characters.  [cur] is
    the run being read, in reverse. *)
Fixpoint rev_string (acc s : string) : string :=
  match s with
  | EmptyString => acc
  | String c t => rev_string (String c acc) t
  end.

Definition flush (cur : string) : list string :=
  match cur with
  | EmptyString => []
  | _ => [rev_string EmptyString cur]
  end.

Fixpoint split_from (cur s : string) : list string :=
  match s with
  | EmptyString => flush cur
  | String c t =>
      if isspace c then (flush cur ++ split_from EmptyString t)%list
      else split_from (String c cur) t
  end.

Definition split (s : string) : list string := split_from EmptyString s.

(** [sep.join(parts)] *)
Fixpoint join (sep : string) (parts : list string) : string :=
  match parts with
  | [] => EmptyString
  | [p] => p
  | p :: rest => p ++ sep ++ join sep rest
  end.

(** [str(n)] for a non-negative [int]. *)
Definition str (n : nat) : string :=
  NilZero.string_of_uint (Nat.to_uint n).

End Py.

(** ** Effects, exceptions and the outside world *)

(** What the assistant does to the world.  [Sleep] is in milliseconds. *)
Inductive event :=
| Speak (text : string)
| OpenBrowser (url : string)
| Sleep (ms : nat).

Definition trace := list event.

(** The exceptions the code can meet.  [KeyboardInterrupt] is not an
    [Exception] in Python; the two others are. *)
Inductive exn :=
| KeyError
| UnexpectedError
| KeyboardInterrupt.

Definition is_Exception (e : exn) : bool :=
  match e with
  | KeyboardInterrupt => false
  | KeyError | UnexpectedError => true
  end.

Inductive result (A : Type) :=
| Ok (a : A)
| Raise (e : exn).

Arguments Ok {A} a.
Arguments Raise {A} e.

(** One article of the news service's JSON: its ['title'] key may be
    missing. *)
Record article := { title : option string }.

(** What [requests.get], [raise_for_status] and [response.json] do for a
    URL: one of the three exception classes [get_news] tells apart, or
    the list under the ['articles'] key (empty when the key is missing). *)
Inductive http_reply :=
| HttpTimeout
| HttpRequestException
| HttpOtherException
| HttpJson (articles : list article).

Record env := {
  newsapi_key : option string;
  client : bool;
  generate_content : string -> string -> option string;
  requests_get : string -> http_reply;
  strftime : string -> string
}.

(** ** Ai_agent_module.py *)

Module AIClient.

(** [AIClient._clean_response] *)
Definition _clean_response (text : string) : string :=
  if negb (Py.truthy text) then "I'm sorry, I couldn't generate a response."
  else
    let cleaned :=
      Py.replace "`" "" (Py.replace "#" "" (Py.replace "*" "" text)) in
    let cleaned := Py.join " " (Py.split cleaned) in
    let cleaned :=
      if Py.truthy cleaned
         && negb (Py.endswith "." cleaned || Py.endswith "!" cleaned
                  || Py.endswith "?" cleaned)
      then cleaned ++ "."
      else cleaned in
    Py.strip cleaned.

(** What [self.client.models.generate_content] does for a model and a
    prompt: it raises, or it answers with a response whose [text] may be
    [None]. *)
Inductive reply :=
| Fails
| Answers (text : option string).

Definition newline : string := String (ascii_of_nat 10) EmptyString.

(** [_clean_response] on the [text] of a response: [not None] holds as
    [not ""] does, and the same apology is returned. *)
Definition clean_text (text : option string) : string :=
  match text with
  | Some t => _clean_response t
  | None => _clean_response ""
  end.

(** [AIClient.generate_response]; [max_tokens] is not read. *)
Definition generate_response (service : string -> string -> reply)
  (prompt model : string) (context : option string) : string :=
  let enhanced_prompt :=
    match context with
    | Some c =>
        if Py.truthy c then c ++ newline ++ newline ++ "User: " ++ prompt
        else prompt
    | None => prompt
    end in
  match service model enhanced_prompt with
  | Answers text => clean_text text
  | Fails =>
      "I apologize, but I'm having trouble processing your request right now."
  end.

Definition default_context : string :=
  newline
  ++ "        You are Jarvis, a helpful voice assistant. You should:" ++ newline
  ++ "        - Respond naturally and conversationally" ++ newline
  ++ "        - Keep responses concise but informative" ++ newline
  ++ "        - Be friendly and professional" ++ newline
  ++ "        - Provide practical, actionable information when possible" ++ newline
  ++ "        - If you can't help with something, suggest alternatives" ++ newline
  ++ "        ".

(** [AIClient.get_contextual_response] *)
Definition get_contextual_response (service : string -> string -> reply)
  (query : string) (assistant_context : option string) : string :=
  let context :=
    match assistant_context with
    | Some c => if Py.truthy c then c else default_context
    | None => default_context
    end in
  generate_response service query "gemini-2.0-flash-exp" (Some context).

End AIClient.

(** ** Main.py *)

Module VoiceAssistant.

(** [self.music_library], in insertion order. *)
Definition music_library : list (string * string) :=
  [ ("skyfall", "https://open.spotify.com/track/6VObnIkLVruX4UVyxWhlqm");
    ("levitating", "https://open.spotify.com/track/39LLxExYz6ewLAcYrzQQyP");
    ("sugar", "https://open.spotify.com/track/2iuZJX9X9P0GKaE93xcPjk");
    ("despacito", "https://open.spotify.com/track/6habFhsOp2NvshLv26DqMb");
    ("faded", "https://open.spotify.com/track/7BKLCZ1jbUBVqRi2FVlTVw");
    ("dusk till dawn", "https://open.spotify.com/track/3e7sxremeOE3wTySiOhGiP");
    ("shape of you", "https://open.spotify.com/track/7qiZfU4dY1lWllzX7mPBI3");
    ("perfect", "https://open.spotify.com/track/0tgVpDi06FyKpA1z0VMD4v");
    ("believer", "https://open.spotify.com/track/0pqnGHJpmpxLKifKRmU6WP");
    ("blinding lights", "https://open.spotify.com/track/0VjIjW4GlUZAMYd2vXMi3b") ].

(** [self.song_aliases], in insertion order. *)
Definition song_aliases : list (string * list string) :=
  [ ("dusk till dawn", ["dusk till dawn"; "dusk to dawn"; "dusk until dawn"]);
    ("shape of you", ["shape of you"; "shape of u"]);
    ("blinding lights", ["blinding lights"; "blinding light"]) ].

(** [key in d] and [d[key]] for a dict kept as an association list. *)
Fixpoint dict_get {V : Type} (d : list (string * V)) (key : string)
  : option V :=
  match d with
  | [] => None
  | (k, v) :: rest => if String.eqb key k then Some v else dict_get rest key
  end.

Definition dict_mem {V : Type} (d : list (string * V)) (key : string) : bool :=
  match dict_get d key with
  | Some _ => true
  | None => false
  end.

Definition dict_item {V : Type} (d : list (string * V)) (key : string)
  : result V :=
  match dict_get d key with
  | Some v => Ok v
  | None => Raise KeyError
  end.

(** [x in xs] for a list of [str]. *)
Definition list_mem (x : string) (xs : list string) : bool :=
  existsb (String.eqb x) xs.

(** [speak]: nothing happens for an empty text; [_speak_sync] catches
    whatever the engine raises. *)
Definition speak (text : string) : trace :=
  if negb (Py.truthy text) then [] else [Speak text].

(** The f-string of [ai_process]. *)
Definition nl : string := String (ascii_of_nat 10) EmptyString.

Definition enhanced_prompt (command : string) : string :=
  nl
  ++ "            You are Jarvis, a helpful voice assistant. Respond concisely and naturally." ++ nl
  ++ "            User query: " ++ command ++ nl
  ++ "            " ++ nl
  ++ "            Keep responses brief and conversational for voice interaction." ++ nl
  ++ "            ".

(** [ai_process]: every exception of the [try] block, a response without
    text included (the [None] of [generate_content]), gives the apology. *)
Definition ai_process (w : env) (command : string) : string :=
  if negb (client w)
  then "AI functionality is not available. Please check your API key."
  else
    match generate_content w "gemini-2.0-flash-exp" (enhanced_prompt command) with
    | Some text => Py.strip (Py.replace "*" "" text)
    | None => "I'm having trouble processing that request right now."
    end.

(** The loops of [find_song], over any library and alias table. *)
Fixpoint alias_match (lib : list (string * string))
  (aliases : list (string * list string)) (song_query : string)
  : option (result string) :=
  match aliases with
  | [] => None
  | (song, names) :: rest =>
      if list_mem song_query names then Some (dict_item lib song)
      else alias_match lib rest song_query
  end.

Fixpoint partial_match (lib : list (string * string)) (song_query : string)
  : option string :=
  match lib with
  | [] => None
  | (song_name, url) :: rest =>
      if Py.contains song_query song_name || Py.contains song_name song_query
      then Some url
      else partial_match rest song_query
  end.

Definition find_song_in (lib : list (string * string))
  (aliases : list (string * list string)) (song_query : string)
  : result (option string) :=
  let song_query := Py.strip (Py.lower song_query) in
  match dict_get lib song_query with
  | Some url => Ok (Some url)
  | None =>
      match alias_match lib aliases song_query with
      | Some (Ok url) => Ok (Some url)
      | Some (Raise e) => Raise e
      | None => Ok (partial_match lib song_query)
      end
  end.

(** [find_song] *)
Definition find_song (song_query : string) : result (option string) :=
  find_song_in music_library song_aliases song_query.

(** [get_news]: the body of the [try] block for a parsed reply. *)
Fixpoint speak_headlines (i : nat) (articles : list article) : trace :=
  match articles with
  | [] => []
  | a :: rest =>
      let t := match title a with
               | Some t => t
               | None => "No title available"
               end in
      (speak ("News " ++ Py.str i ++ ": " ++ t) ++ [Sleep 500]
       ++ speak_headlines (S i) rest)%list
  end.

Definition news_url (country category key : string) : string :=
  "https://newsapi.org/v2/top-headlines?country=" ++ country
  ++ "&category=" ++ category ++ "&apiKey=" ++ key.

Definition get_news (w : env) (category country : string) : trace * bool :=
  match newsapi_key w with
  | None => (speak "News service is not configured.", false)
  | Some key =>
      if negb (Py.truthy key)
      then (speak "News service is not configured.", false)
      else
        match requests_get w (news_url country category key) with
        | HttpJson articles =>
            match articles with
            | [] => (speak "No news articles found at the moment.", false)
            | _ :: _ =>
                ((speak ("Here are the top "
                         ++ Py.str (Nat.min 3 (List.length articles))
                         ++ " headlines:")
                  ++ speak_headlines 1 (firstn 3 articles))%list, true)
            end
        | HttpTimeout =>
            (speak "News service is taking too long to respond.", false)
        | HttpRequestException =>
            (speak "I'm having trouble connecting to the news service.", false)
        | HttpOtherException =>
            (speak "An error occurred while fetching news.", false)
        end
  end.

(** The tables of [process_command], in insertion order. *)
Definition website_commands : list (string * (string * string)) :=
  [ ("open google", ("https://google.com", "Opening Google"));
    ("open youtube", ("https://youtube.com", "Opening YouTube"));
    ("open instagram", ("https://instagram.com", "Opening Instagram"));
    ("open linkedin", ("https://linkedin.com", "Opening LinkedIn"));
    ("open facebook", ("https://facebook.com", "Opening Facebook"));
    ("open twitter", ("https://twitter.com", "Opening Twitter"));
    ("open reddit", ("https://reddit.com", "Opening Reddit")) ].

Definition exit_commands : list string :=
  ["goodbye"; "stop"; "quit"; "exit"; "bye"].

(** The first website command contained in the command. *)
Definition website_match (command : string)
  : option (string * (string * string)) :=
  find (fun entry => Py.contains (fst entry) command) website_commands.

(** The category chosen in the news branch. *)
Definition news_category (command : string) : string :=
  if Py.contains "technology" command || Py.contains "tech" command
  then "technology"
  else if Py.contains "sports" command then "sports"
  else if Py.contains "business" command then "business"
  else if Py.contains "entertainment" command then "entertainment"
  else "general".

(** The music branch, once the command is known to start with "play". *)
Definition play_music (command : string) : trace * result string :=
  let song_query := Py.strip (Py.replace "play" "" command) in
  if negb (Py.truthy song_query)
  then (speak "Please specify a song to play.", Ok "continue")
  else
    match find_song song_query with
    | Raise e => ([], Raise e)
    | Ok song_url =>
        let found := match song_url with
                     | Some url => Py.truthy url
                     | None => false
                     end in
        match song_url, found with
        | Some url, true =>
            ((speak ("Playing " ++ song_query) ++ [OpenBrowser url])%list,
             Ok "continue")
        | _, _ =>
            let youtube_search :=
              "https://www.youtube.com/results?search_query="
              ++ Py.replace " " "+" song_query in
            ((speak ("Sorry, I couldn't find " ++ song_query
                     ++ " in my music library.")
              ++ speak "Let me search for it on YouTube instead."
              ++ [OpenBrowser youtube_search])%list,
             Ok "continue")
        end
    end.

(** [process_command].  [speak] and [get_news] catch what they meet,
    [ai_process] returns a text in every case, and [webbrowser.open]
    reports a failure by its return value, which is not read: the one
    call that can raise here is the dictionary lookup of [find_song]. *)
Definition process_command (w : env) (command : string)
  : trace * result string :=
  let command := Py.strip (Py.lower command) in
  if negb (Py.truthy command) then ([], Ok "continue")
  else
    match website_match command with
    | Some (_, (url, message)) =>
        ((speak message ++ [OpenBrowser url])%list, Ok "continue")
    | None =>
        if Py.startswith "play" command then play_music command
        else if Py.contains "news" command then
          (fst (get_news w (news_category command) "in"), Ok "continue")
        else if Py.contains "time" command then
          (speak ("The current time is " ++ strftime w "%I:%M %p"),
           Ok "continue")
        else if Py.contains "date" command then
          (speak ("Today is " ++ strftime w "%B %d, %Y"), Ok "continue")
        else if existsb (fun exit_cmd => Py.contains exit_cmd command)
                  exit_commands then
          (speak "Goodbye! Have a great day!", Ok "quit")
        else
          ((speak "Let me think about that..."
            ++ speak (ai_process w command))%list, Ok "continue")
    end.

(** What the microphone and the recogniser do in one call of
    [listen_for_command]. *)
Inductive heard :=
| Recognized (text : string)
| WaitTimeoutError
| UnknownValueError
| RequestError
| ListenError
| Interrupted.

(** [listen_for_command]: the four [except] clauses return [None]; a
    keyboard interrupt is none of them and goes up to the caller. *)
Definition listen_for_command (h : heard) : result (option string) :=
  match h with
  | Recognized text => Ok (Some (Py.lower text))
  | WaitTimeoutError | UnknownValueError | RequestError | ListenError =>
      Ok None
  | Interrupted => Raise KeyboardInterrupt
  end.

(** The variables [run] updates. *)
Record session := {
  consecutive_errors : nat;
  should_quit : bool
}.

Definition max_consecutive_errors : nat := 5.

Definition set_errors (n : nat) (s : session) : session :=
  {| consecutive_errors := n; should_quit := should_quit s |}.

Definition set_quit (s : session) : session :=
  {| consecutive_errors := consecutive_errors s; should_quit := true |}.

(** One pass of the loop: what is heard, and the world the command is
    processed in. *)
Record turn := {
  microphone : heard;
  world : env
}.

(** How a pass of the loop ends: at the next pass, or out of the loop. *)
Inductive control :=
| Next
| Break.

(** Whether the loop is still running when the turns given are used up. *)
Inductive status :=
| Running
| Stopped.

(** [command is None] in [run]. *)
Definition listen_failed (s : session) : trace * session :=
  let n := S (consecutive_errors s) in
  if (max_consecutive_errors <=? n)%nat
  then ((speak "I'm having trouble hearing you. Please check your microphone."
         ++ [Sleep 2000])%list,
        set_errors 0 s)
  else ([], set_errors n s).

(** [except Exception] in [run]. *)
Definition except_Exception (s : session) : trace * session :=
  let n := S (consecutive_errors s) in
  if (max_consecutive_errors <=? n)%nat
  then ((speak "I'm experiencing technical difficulties. Restarting..."
         ++ [Sleep 3000])%list,
        set_errors 0 s)
  else ([], set_errors n s).

Section DialogueLoop.

(** [self.process_command], as the loop sees it: a method that speaks and
    returns, or raises. *)
Variable dispatch : env -> string -> trace * result string.

(** The [try] block of one pass.  The session is returned as it stands
    when the block ends or raises. *)
Definition try_block (s : session) (t : turn)
  : trace * session * result control :=
  match listen_for_command (microphone t) with
  | Raise e => ([], s, Raise e)
  | Ok None =>
      let (tr, s') := listen_failed s in (tr, s', Ok Next)
  | Ok (Some command) =>
      let s := set_errors 0 s in
      if Py.startswith "jarvis" command then
        let actual_command := Py.strip (Py.replace "jarvis" "" command) in
        if Py.truthy actual_command then
          match dispatch (world t) actual_command with
          | (tr, Raise e) => (tr, s, Raise e)
          | (tr, Ok res) =>
              if String.eqb res "quit" then (tr, set_quit s, Ok Break)
              else (tr, s, Ok Next)
          end
        else (speak "Yes, how can I help you?", s, Ok Next)
      else ([], s, Ok Next)
  end.

(** One pass: the [try] block and its two handlers. *)
Definition iteration (s : session) (t : turn) : trace * session * control :=
  match try_block s t with
  | (tr, s', Ok c) => (tr, s', c)
  | (tr, s', Raise e) =>
      if is_Exception e then
        let (tr', s'') := except_Exception s' in ((tr ++ tr')%list, s'', Next)
      else ((tr ++ speak "Shutting down...")%list, s', Break)
  end.

(** [while not self.should_quit], over the turns given. *)
Fixpoint loop (s : session) (turns : list turn) : trace * session * status :=
  if should_quit s then ([], s, Stopped)
  else
    match turns with
    | [] => ([], s, Running)
    | t :: rest =>
        match iteration s t with
        | (tr, s', Break) => (tr, s', Stopped)
        | (tr, s', Next) =>
            match loop s' rest with
            | (tr', s'', st) => ((tr ++ tr')%list, s'', st)
            end
        end
    end.

Definition run_with (turns : list turn) : trace * session * status :=
  match loop {| consecutive_errors := 0; should_quit := false |} turns with
  | (tr, s, st) =>
      ((speak "Jarvis is now online and ready to assist you!"
        ++ speak "Say 'Jarvis' followed by your command."
        ++ tr)%list, s, st)
  end.

End DialogueLoop.

(** [run] *)
Definition run (turns : list turn) : trace * session * status :=
  run_with process_command turns.

End VoiceAssistant.

(** ** The words of the specification *)

Module Spec.

Import VoiceAssistant.

(** A query or command as the code compares it: lower case, trimmed. *)
Definition normalized (s : string) : string := Py.strip (Py.lower s).

(** Exact match: the query is a canonical name of the library. *)
Definition exact_match (q : string) : Prop :=
  exists url, In (q, url) music_library.

(** Alias match: the query is one of the aliases of some entry. *)
Definition alias_hit (q : string) : Prop :=
  exists song names, In (song, names) song_aliases /\ In q names.

(** Substring match, in either direction, with some canonical name. *)
Definition substring_hit (q : string) : Prop :=
  exists name url,
    In (name, url) music_library
    /\ (Py.contains q name = true \/ Py.contains name q = true).

(** The command contains no website trigger phrase. *)
Definition no_website_trigger (c : string) : Prop :=
  forall cmd target, In (cmd, target) website_commands ->
                     Py.contains cmd c = false.

(** The command contains one of the exit phrases. *)
Definition has_exit_phrase (c : string) : Prop :=
  exists phrase, In phrase exit_commands /\ Py.contains phrase c = true.

(** The text without its first [n] characters. *)
Fixpoint drop (n : nat) (s : string) : string :=
  match n, s with
  | O, _ => s
  | S _, EmptyString => EmptyString
  | S k, String _ t => drop k t
  end.

(** The same world with another clock. *)
Definition with_clock (clock : string -> string) (w : env) : env :=
  {| newsapi_key := newsapi_key w;
     client := client w;
     generate_content := generate_content w;
     requests_get := requests_get w;
     strftime := clock |}.

(** None of the category keywords of the news branch occurs. *)
Definition no_category_keyword (c : string) : Prop :=
  Py.contains "technology" c = false /\ Py.contains "tech" c = false
  /\ Py.contains "sports" c = false /\ Py.contains "business" c = false
  /\ Py.contains "entertainment" c = false.

(** An unsuccessful listen: [listen_for_command] returns [None]. *)
Definition listen_fails (t : turn) : Prop :=
  listen_for_command (microphone t) = Ok None.

(** "The leading token stripped and then trimmed", for a text that starts
    with the token. *)
Definition strip_leading_token (token text : string) : string :=
  Py.strip (drop (String.length token) text).

End Spec.

(** ** Sample worlds and dispatchers *)

Module Samples.

Import VoiceAssistant.

(** A clock stopped at half past ten on the third of November 2026. *)
Definition sample_clock (format : string) : string :=
  if String.eqb format "%I:%M %p" then "10:30 AM" else "November 03, 2026".

(** News configured and answering with no article; the AI service
    answers with emphasis markers and no final period. *)
Definition quiet_world : env :=
  {| newsapi_key := Some "demo-key";
     client := true;
     generate_content := fun _ _ => Some "**Hello** there";
     requests_get := fun _ => HttpJson [];
     strftime := sample_clock |}.

(** Two articles, the second without a title. *)
Definition busy_world : env :=
  {| newsapi_key := Some "demo-key";
     client := true;
     generate_content := fun _ _ => None;
     requests_get :=
       fun _ => HttpJson [ {| title := Some "Rocq 9.3 released" |};
                           {| title := None |} ];
     strftime := sample_clock |}.

(** No key at all: news and AI are both switched off. *)
Definition offline_world : env :=
  {| newsapi_key := None;
     client := false;
     generate_content := fun _ _ => Some "never asked";
     requests_get := fun _ => HttpTimeout;
     strftime := sample_clock |}.

(** An AI service that answers with emphasis markers only. *)
Definition mute_world : env :=
  {| newsapi_key := Some "";
     client := true;
     generate_content := fun _ _ => Some " ** ";
     requests_get := fun _ => HttpRequestException;
     strftime := sample_clock |}.

(** A dispatcher that says the command it is given. *)
Definition echo_dispatch (w : env) (command : string)
  : trace * result string :=
  ([Speak command], Ok "continue").

(** A dispatcher that raises on every command. *)
Definition failing_dispatch (w : env) (command : string)
  : trace * result string :=
  ([], Raise UnexpectedError).

Definition silent_turn (w : env) : turn :=
  {| microphone := WaitTimeoutError; world := w |}.

Definition spoken_turn (text : string) (w : env) : turn :=
  {| microphone := Recognized text; world := w |}.

Definition fresh_session : session :=
  {| consecutive_errors := 0; should_quit := false |}.

End Samples.

(** ** Main.py: the voice of the engine *)

Module Tts.

(** A voice of the engine, as [getProperty('voices')] lists it. *)
Record voice := {
  voice_id : string;
  voice_name : string
}.

(** A call of [self.engine.setProperty]; the volume 0.9 is kept in
    hundredths. *)
Inductive setting :=
| SetVoice (id : string)
| SetRate (words_per_minute : nat)
| SetVolume (hundredths : nat).

(** The [for] loop over the voices, left at the first match. *)
Fixpoint prefer_female (voices : list voice) : list setting :=
  match voices with
  | [] => []
  | v :: rest =>
      if Py.contains "female" (Py.lower (voice_name v))
      then [SetVoice (voice_id v)]
      else prefer_female rest
  end.

(** [_configure_tts]: the calls of [setProperty] it makes, every voice
    having a text for a name.  [None] is a [getProperty] that raises:
    the handler logs a warning and nothing is set. *)
Definition _configure_tts (voices : option (list voice)) : list setting :=
  match voices with
  | None => []
  | Some voices => (prefer_female voices ++ [SetRate 180; SetVolume 90])%list
  end.

End Tts.

(** ** Main.py: the microphone and its calibration *)

Module Calibration.

Import VoiceAssistant.

(** One call of [listen_for_command], stage by stage: whether
    [sr.Microphone()] opens, whether [adjust_for_ambient_noise] returns
    (read only when it is called), and what listening and recognition
    give. *)
Record attempt := {
  microphone_opens : bool;
  calibration_succeeds : bool;
  hears : heard
}.

Inductive audio_event :=
| AdjustForAmbientNoise (duration : nat)
| Listen (timeout phrase_time_limit : nat).

(** [listen_for_command] with [self.is_listening]: the calls made to the
    recogniser, the flag afterwards, and the result.  A stage that
    raises an [Exception] ends the call with [None]. *)
Definition listen_for_command (is_listening : bool) (a : attempt)
  : list audio_event * bool * result (option string) :=
  if negb (microphone_opens a) then ([], is_listening, Ok None)
  else if is_listening then
    ([Listen 10 10], true, VoiceAssistant.listen_for_command (hears a))
  else if calibration_succeeds a then
    ([AdjustForAmbientNoise 1; Listen 10 10], true,
     VoiceAssistant.listen_for_command (hears a))
  else ([AdjustForAmbientNoise 1], false, Ok None).

(** The calls of a session, one after the other. *)
Fixpoint listen_all (is_listening : bool) (attempts : list attempt)
  : list audio_event * bool :=
  match attempts with
  | [] => ([], is_listening)
  | a :: rest =>
      match listen_for_command is_listening a with
      | (ev, flag, _) =>
          match listen_all flag rest with
          | (ev', flag') => ((ev ++ ev')%list, flag')
          end
      end
  end.

Definition is_adjust (e : audio_event) : bool :=
  match e with
  | AdjustForAmbientNoise _ => true
  | Listen _ _ => false
  end.

End Calibration.

(** ** What is read off a trace or a text *)

Module Obs.

Import VoiceAssistant.

Definition is_speak (e : event) : bool :=
  match e with Speak _ => true | _ => false end.

Definition is_open (e : event) : bool :=
  match e with OpenBrowser _ => true | _ => false end.

Definition is_sleep (e : event) : bool :=
  match e with Sleep _ => true | _ => false end.

(** How many events of a kind a trace holds. *)
Definition count (kind : event -> bool) (tr : trace) : nat :=
  List.length (filter kind tr).

(** [c in s] for one character. *)
Fixpoint mem_char (c : ascii) (s : string) : bool :=
  match s with
  | EmptyString => false
  | String a t => Ascii.eqb c a || mem_char c t
  end.

(** Every character of the text passes the test. *)
Fixpoint all_chars (test : ascii -> bool) (s : string) : bool :=
  match s with
  | EmptyString => true
  | String a t => test a && all_chars test t
  end.

Definition nonspace (c : ascii) : bool := negb (Py.isspace c).

(** A word: a non-empty text without white space. *)
Definition word (s : string) : bool :=
  Py.truthy s && all_chars nonspace s.

(** The text ends a sentence: its last character is one of [.!?]. *)
Definition terminal (s : string) : bool :=
  Py.endswith "." s || Py.endswith "!" s || Py.endswith "?" s.

(** The title spoken for an article. *)
Definition spoken_title (a : article) : string :=
  match title a with
  | Some t => t
  | None => "No title available"
  end.

(** The notice of a burst of failed listens, [n] times over. *)
Fixpoint hearing_notices (n : nat) : trace :=
  match n with
  | O => []
  | S k =>
      Speak "I'm having trouble hearing you. Please check your microphone."
      :: Sleep 2000 :: hearing_notices k
  end.

End Obs.

(** ** Main.py: the news handler over any reply of the service *)

Module NewsService.

Import VoiceAssistant.

(** A value as [response.json()] returns it.  A number keeps its text,
    and whether it is zero; an object keeps its items, keys distinct. *)
#[warnings="-register-all"]
Inductive json :=
| JNull
| JBool (b : bool)
| JNumber (is_zero : bool) (literal : string)
| JString (s : string)
| JList (items : list json)
| JObject (fields : list (string * json)).

(** What [requests.get], [raise_for_status] and [response.json] do for
    a URL: one of the three exception classes [get_news] tells apart, or
    the parsed document, whatever its shape. *)
Inductive reply :=
| Timeout
| RequestException
| OtherException
| Json (data : json).

Record service := {
  newsapi_key : option string;
  requests_get : string -> reply
}.

(** [bool(v)] *)
Definition truthy (v : json) : bool :=
  match v with
  | JNull => false
  | JBool b => b
  | JNumber is_zero _ => negb is_zero
  | JString s => Py.truthy s
  | JList [] => false
  | JList (_ :: _) => true
  | JObject [] => false
  | JObject (_ :: _) => true
  end.

(** [len(v)]: [None] where Python raises [TypeError]. *)
Definition len (v : json) : option nat :=
  match v with
  | JString s => Some (String.length s)
  | JList items => Some (List.length items)
  | JObject fields => Some (List.length fields)
  | JNull | JBool _ | JNumber _ _ => None
  end.

Definition is_object (v : json) : bool :=
  match v with
  | JObject _ => true
  | _ => false
  end.

(** Every element is an object. *)
Definition all_objects (items : list json) : Prop :=
  Forall (fun v => is_object v = true) items.

Section Rendering.

(** [str(v)], as the f-string of a headline formats a title: the text
    itself for a string, "None" for [null]. *)
Variable render : json -> string.

(** [article.get('title', 'No title available')], formatted. *)
Definition spoken_title (fields : list (string * json)) : string :=
  match dict_get fields "title" with
  | Some v => render v
  | None => "No title available"
  end.

(** The [for] loop over [articles[:3]]: what is spoken, and whether the
    loop ran to its end; [article.get] raises on what is not an
    object. *)
Fixpoint speak_items (i : nat) (items : list json) : trace * bool :=
  match items with
  | [] => ([], true)
  | JObject fields :: rest =>
      match speak_items (S i) rest with
      | (tr, completed) =>
          ((speak ("News " ++ Py.str i ++ ": " ++ spoken_title fields)
            ++ [Sleep 500] ++ tr)%list, completed)
      end
  | _ :: _ => ([], false)
  end.

(** [get_news], for every shape of the reply.  After the parse, what
    raises is caught by [except Exception]: [data.get] on what is not
    an object, [len] of a number or of [true], [article.get] on what is
    not an object, and the slice [articles[:3]] of an object; the
    characters of a string are no objects. *)
Definition get_news (sv : service) (category country : string)
  : trace * bool :=
  match newsapi_key sv with
  | None => (speak "News service is not configured.", false)
  | Some key =>
      if negb (Py.truthy key)
      then (speak "News service is not configured.", false)
      else
        match requests_get sv (news_url country category key) with
        | Timeout =>
            (speak "News service is taking too long to respond.", false)
        | RequestException =>
            (speak "I'm having trouble connecting to the news service.", false)
        | OtherException =>
            (speak "An error occurred while fetching news.", false)
        | Json (JObject fields) =>
            let articles :=
              match dict_get fields "articles" with
              | Some v => v
              | None => JList []
              end in
            if negb (truthy articles)
            then (speak "No news articles found at the moment.", false)
            else
              match len articles with
              | None => (speak "An error occurred while fetching news.", false)
              | Some n =>
                  let announcement :=
                    speak ("Here are the top " ++ Py.str (Nat.min 3 n)
                           ++ " headlines:") in
                  match articles with
                  | JList items =>
                      match speak_items 1 (firstn 3 items) with
                      | (tr, true) => ((announcement ++ tr)%list, true)
                      | (tr, false) =>
                          ((announcement ++ tr
                            ++ speak "An error occurred while fetching news.")%list,
                           false)
                      end
                  | _ =>
                      ((announcement
                        ++ speak "An error occurred while fetching news.")%list,
                       false)
                  end
              end
        | Json _ => (speak "An error occurred while fetching news.", false)
        end
  end.

End Rendering.

(** The sentences [get_news] ends on when it returns [False]. *)
Definition failure_notices : list string :=
  [ "News service is not configured.";
    "No news articles found at the moment.";
    "News service is taking too long to respond.";
    "I'm having trouble connecting to the news service.";
    "An error occurred while fetching news." ].

(** The article of [VoiceAssistant.get_news] that stands for an object:
    its title is the formatted value, when there is one. *)
Definition as_article (render : json -> string) (v : json) : article :=
  match v with
  | JObject fields => {| title := option_map render (dict_get fields "title") |}
  | _ => {| title := None |}
  end.

(** [str] on the values that need no more than their text. *)
Definition render_plain (v : json) : string :=
  match v with
  | JNull => "None"
  | JBool true => "True"
  | JBool false => "False"
  | JNumber _ literal => literal
  | JString s => s
  | JList _ => "[...]"
  | JObject _ => "{...}"
  end.

(** A reply with a title, a [null] title, no title, and a fourth
    element that is never read. *)
Definition sample_service : service :=
  {| newsapi_key := Some "demo-key";
     requests_get := fun _ =>
       Json (JObject
         [ ("status", JString "ok");
           ("articles",
            JList [ JObject [("title", JString "Rocq 9.3 released")];
                    JObject [("title", JNull)];
                    JObject [("url", JString "https://example.org")];
                    JNumber false "4" ]) ]) |}.

(** A reply whose second element is no object. *)
Definition broken_service : service :=
  {| newsapi_key := Some "demo-key";
     requests_get := fun _ =>
       Json (JObject
         [ ("articles",
            JList [ JObject [("title", JString "First")];
                    JString "second";
                    JObject [("title", JString "Third")] ]) ]) |}.

End NewsService.

(** Going through the entries of a table given in full. *)
Ltac each_entry H :=
  simpl in H;
  repeat (destruct H as [H|H]; [inversion H; subst|]);
  try contradiction.

(** ** Facts about the string primitives *)

Section StringFacts.

Lemma startswith_app (p t : string) : Py.startswith p (p ++ t) = true.
Proof.
  induction p as [|c p IH]; simpl; [reflexivity|].
  now rewrite Ascii.eqb_refl.
Qed.

Lemma startswith_inv (p s : string) :
  Py.startswith p s = true -> exists t, s = p ++ t.
Proof.
  revert s; induction p as [|c p IH]; intros s H; simpl in *.
  - now exists s.
  - destruct s as [|b s]; [discriminate|].
    apply andb_true_iff in H as [Hc Hp].
    apply Ascii.eqb_eq in Hc; subst b.
    destruct (IH _ Hp) as [t ->]. now exists t.
Qed.

Lemma startswith_iff (p s : string) :
  Py.startswith p s = true <-> exists t, s = p ++ t.
Proof.
  split; [apply startswith_inv|].
  intros [t ->]. apply startswith_app.
Qed.

Lemma contains_unfold (sub s : string) :
  Py.contains sub s =
  Py.startswith sub s
  || match s with
     | EmptyString => false
     | String _ t => Py.contains sub t
     end.
Proof. destruct s; reflexivity. Qed.

Lemma append_assoc (a b c : string) : (a ++ b) ++ c = a ++ (b ++ c).
Proof. induction a as [|x a IH]; simpl; [reflexivity|now rewrite IH]. Qed.

Lemma append_nil_r (a : string) : a ++ "" = a.
Proof. induction a as [|x a IH]; simpl; [reflexivity|now rewrite IH]. Qed.

Lemma append_length (a b : string) :
  String.length (a ++ b) = String.length a + String.length b.
Proof. induction a as [|x a IH]; simpl; [reflexivity|now rewrite IH]. Qed.

(** [sub in s] holds exactly when [s] is [sub] between two texts. *)
Lemma contains_iff (sub s : string) :
  Py.contains sub s = true <-> exists pre post, s = pre ++ sub ++ post.
Proof.
  split.
  - induction s as [|c s IH]; rewrite contains_unfold; intros H;
      apply orb_true_iff in H as [H|H].
    + apply startswith_inv in H as [t Ht]. now exists "", t.
    + discriminate.
    + apply startswith_inv in H as [t Ht]. now exists "", t.
    + destruct (IH H) as (pre & post & ->). now exists (String c pre), post.
  - intros (pre & post & ->).
    induction pre as [|c pre IH]; simpl append.
    + rewrite contains_unfold, startswith_app. reflexivity.
    + rewrite contains_unfold, IH. apply orb_true_r.
Qed.

Lemma contains_trans (a b c : string) :
  Py.contains a b = true -> Py.contains b c = true -> Py.contains a c = true.
Proof.
  rewrite !contains_iff.
  intros (p1 & q1 & ->) (p2 & q2 & ->).
  exists (p2 ++ p1), (q1 ++ q2).
  now rewrite !append_assoc.
Qed.

Lemma contains_length (a b : string) :
  Py.contains a b = true -> String.length a <= String.length b.
Proof.
  rewrite contains_iff. intros (p & q & ->).
  rewrite !append_length. lia.
Qed.

Lemma length_zero_inv (s : string) : String.length s = 0 -> s = "".
Proof. destruct s; [reflexivity|discriminate]. Qed.

Lemma contains_same_length (a b : string) :
  Py.contains a b = true -> String.length b <= String.length a -> a = b.
Proof.
  rewrite contains_iff. intros (p & q & ->) Hlen.
  rewrite !append_length in Hlen.
  assert (Hp : p = "") by (apply length_zero_inv; lia).
  assert (Hq : q = "") by (apply length_zero_inv; lia).
  subst. simpl. now rewrite append_nil_r.
Qed.

Lemma contains_antisym (a b : string) :
  Py.contains a b = true -> Py.contains b a = true -> a = b.
Proof.
  intros Hab Hba. apply contains_same_length; [assumption|].
  now apply contains_length.
Qed.

Lemma contains_empty (s : string) : Py.contains "" s = true.
Proof. rewrite contains_unfold. reflexivity. Qed.

Lemma contains_false_startswith (sub s : string) :
  Py.contains sub s = false -> Py.startswith sub s = false.
Proof.
  rewrite contains_unfold. intros H.
  now apply orb_false_iff in H as [H _].
Qed.

(** Passing the characters of a matched occurrence. *)
Lemma replace_from_skip (old new a b : string) :
  Py.replace_from old new (a ++ b) (String.length a)
  = Py.replace_from old new b 0.
Proof. induction a as [|c a IH]; simpl; [reflexivity|exact IH]. Qed.

(** A text in which [old] does not occur is left as it is. *)
Lemma replace_absent (old new s : string) :
  Py.contains old s = false -> Py.replace old new s = s.
Proof.
  unfold Py.replace.
  induction s as [|c s IH]; intros H; [reflexivity|].
  rewrite contains_unfold in H. apply orb_false_iff in H as [Hs Hc].
  cbn [Py.replace_from]. rewrite Hs, (IH Hc). reflexivity.
Qed.

(** Deleting [old] from a text that starts with it and holds no other
    occurrence leaves the rest of the text. *)
Lemma replace_leading_only (c : ascii) (old rest : string) :
  Py.contains (String c old) rest = false ->
  Py.replace (String c old) "" (String c old ++ rest) = rest.
Proof.
  intros H. unfold Py.replace.
  change (String c old ++ rest) with (String c (old ++ rest)).
  cbn [Py.replace_from].
  change (String c (old ++ rest)) with (String c old ++ rest).
  rewrite startswith_app.
  replace (String.length (String c old) - 1) with (String.length old)
    by (simpl; lia).
  rewrite replace_from_skip.
  simpl append. now apply replace_absent.
Qed.

Lemma drop_app (a b : string) : Spec.drop (String.length a) (a ++ b) = b.
Proof.
  induction a as [|c a IH]; simpl; [now destruct b|exact IH].
Qed.

End StringFacts.

(** ** The song resolver *)

Section SongResolver.

Import VoiceAssistant.

Lemma dict_get_In {V : Type} (d : list (string * V)) (k : string) (v : V) :
  dict_get d k = Some v -> In (k, v) d.
Proof.
  induction d as [|[k' v'] d IH]; simpl; [discriminate|].
  destruct (String.eqb k k') eqn:E.
  - apply String.eqb_eq in E. intros [= ->]. left. now subst.
  - intros H. right. now apply IH.
Qed.

Lemma dict_get_None {V : Type} (d : list (string * V)) (k : string) :
  (forall v, ~ In (k, v) d) -> dict_get d k = None.
Proof.
  induction d as [|[k' v'] d IH]; simpl; intros H; [reflexivity|].
  destruct (String.eqb k k') eqn:E.
  - apply String.eqb_eq in E. subst. exfalso. apply (H v'). now left.
  - apply IH. intros v Hin. apply (H v). now right.
Qed.

Lemma list_mem_In (x : string) (xs : list string) :
  list_mem x xs = true <-> In x xs.
Proof.
  unfold list_mem. rewrite existsb_exists. split.
  - intros (y & Hy & E). apply String.eqb_eq in E. now subst.
  - intros H. exists x. split; [assumption|apply String.eqb_refl].
Qed.

Lemma alias_match_None lib aliases (q : string) :
  (forall song names, In (song, names) aliases -> ~ In q names) ->
  alias_match lib aliases q = None.
Proof.
  induction aliases as [|[song names] rest IH]; simpl; intros H;
    [reflexivity|].
  destruct (list_mem q names) eqn:E.
  - apply list_mem_In in E. exfalso. apply (H song names); [now left|exact E].
  - apply IH. intros s n Hin. apply (H s n). now right.
Qed.

(** When every key of the alias table is a key of the library, the alias
    loop does not raise. *)
Lemma alias_match_no_KeyError lib aliases (q : string) :
  forallb (fun entry => dict_mem lib (fst entry)) aliases = true ->
  forall e, alias_match lib aliases q <> Some (Raise e).
Proof.
  induction aliases as [|[song names] rest IH]; simpl; intros H e;
    [discriminate|].
  apply andb_true_iff in H as [Hk Hrest].
  destruct (list_mem q names).
  - unfold dict_item. unfold dict_mem in Hk.
    destruct (dict_get lib song); [discriminate|discriminate].
  - now apply IH.
Qed.

Lemma partial_match_None lib (q : string) :
  (forall name url, In (name, url) lib ->
     Py.contains q name = false /\ Py.contains name q = false) ->
  partial_match lib q = None.
Proof.
  induction lib as [|[name url] rest IH]; simpl; intros H; [reflexivity|].
  destruct (H name url (or_introl eq_refl)) as [-> ->]. simpl.
  apply IH. intros n u Hin. apply (H n u). now right.
Qed.

Lemma partial_match_Some lib (q url : string) :
  partial_match lib q = Some url ->
  exists name, In (name, url) lib
    /\ (Py.contains q name = true \/ Py.contains name q = true).
Proof.
  induction lib as [|[name u] rest IH]; simpl; [discriminate|].
  destruct (Py.contains q name || Py.contains name q) eqn:E.
  - intros [= ->]. exists name. split; [now left|].
    now apply orb_true_iff in E.
  - intros H. destruct (IH H) as (n & Hin & Hn). exists n. split; [now right|assumption].
Qed.

(** The partial match returns the one entry that matches, when there is
    only one. *)
Lemma partial_match_only lib (q name url : string) :
  In (name, url) lib ->
  Py.contains q name = true ->
  (forall name' url', In (name', url') lib ->
     Py.contains q name' = true \/ Py.contains name' q = true ->
     url' = url) ->
  partial_match lib q = Some url.
Proof.
  induction lib as [|[n u] rest IH]; simpl; intros Hin Hq Honly;
    [contradiction|].
  destruct (Py.contains q n || Py.contains n q) eqn:E.
  - f_equal. apply (Honly n u); [now left|].
    now apply orb_true_iff in E.
  - destruct Hin as [[= -> ->]|Hin].
    + rewrite Hq in E. discriminate.
    + apply IH; [assumption|assumption|].
      intros n' u' Hin' H'. apply (Honly n' u'); [now right|assumption].
Qed.

(** Two facts of the fixed library, both checked by running over it: no
    canonical name occurs inside another one, and no name is listed
    twice. *)
Lemma library_antichain (a ua b ub : string) :
  In (a, ua) music_library -> In (b, ub) music_library ->
  Py.contains a b = true -> a = b /\ ua = ub.
Proof.
  assert (H : forallb (fun x => forallb (fun y =>
             implb (Py.contains (fst x) (fst y))
                   (String.eqb (fst x) (fst y) && String.eqb (snd x) (snd y)))
             music_library) music_library = true) by (vm_compute; reflexivity).
  rewrite forallb_forall in H.
  intros Ha Hb Hc. specialize (H _ Ha). rewrite forallb_forall in H.
  specialize (H _ Hb). simpl in H. rewrite Hc in H. simpl in H.
  apply andb_true_iff in H as [H1 H2].
  now apply String.eqb_eq in H1; apply String.eqb_eq in H2.
Qed.

Lemma aliases_in_library :
  forallb (fun entry => dict_mem music_library (fst entry)) song_aliases = true.
Proof. vm_compute; reflexivity. Qed.

Lemma find_song_never_raises (song_query : string) :
  exists r, find_song song_query = Ok r.
Proof.
  unfold find_song, find_song_in.
  destruct (dict_get music_library _); [eexists; reflexivity|].
  pose proof (alias_match_no_KeyError music_library song_aliases
                (Py.strip (Py.lower song_query)) aliases_in_library) as H.
  destruct (alias_match music_library song_aliases _) as [[url|e]|].
  - eexists; reflexivity.
  - exfalso. now apply (H e).
  - eexists; reflexivity.
Qed.

Lemma find_song_unmatched (song_query : string) :
  ~ Spec.exact_match (Spec.normalized song_query) ->
  ~ Spec.alias_hit (Spec.normalized song_query) ->
  find_song song_query
  = Ok (partial_match music_library (Spec.normalized song_query)).
Proof.
  intros He Ha. unfold find_song, find_song_in.
  fold (Spec.normalized song_query).
  rewrite dict_get_None.
  - rewrite alias_match_None; [reflexivity|].
    intros song names Hin Hq. apply Ha. now exists song, names.
  - intros v Hin. apply He. now exists v.
Qed.

End SongResolver.

Section SongResolverClaims.

Import VoiceAssistant.

Lemma contains_refl (s : string) : Py.contains s s = true.
Proof.
  apply contains_iff. exists "", "". simpl. now rewrite append_nil_r.
Qed.

(** C1, as the claim states it, fails on the empty string: the empty
    string is contained in every canonical name, so the partial match
    returns the first entry of the library, "skyfall". *)
Lemma find_song_empty_query_is_found :
  find_song "" = Ok (Some "https://open.spotify.com/track/6VObnIkLVruX4UVyxWhlqm")
  /\ find_song "" <> Ok None.
Proof. split; [reflexivity|discriminate]. Qed.

(** C1, amended: [find_song] raises on no string; on a string that, in
    lower case and trimmed, is no canonical name, no alias, and neither
    contains nor is contained in a canonical name, it returns [None]; a
    string that is empty once trimmed is contained in every canonical
    name, and the URL of the first entry is returned for it. *)
Theorem find_song_not_found (song_query : string) :
  (exists r, find_song song_query = Ok r)
  /\ (~ Spec.exact_match (Spec.normalized song_query) ->
      ~ Spec.alias_hit (Spec.normalized song_query) ->
      ~ Spec.substring_hit (Spec.normalized song_query) ->
      find_song song_query = Ok None)
  /\ (Spec.normalized song_query = "" ->
      find_song song_query
      = Ok (Some "https://open.spotify.com/track/6VObnIkLVruX4UVyxWhlqm")).
Proof.
  split; [apply find_song_never_raises|split].
  - intros He Ha Hs. rewrite find_song_unmatched by assumption.
    f_equal. apply partial_match_None. intros name url Hin.
    destruct (Py.contains (Spec.normalized song_query) name) eqn:E1.
    { exfalso. apply Hs. exists name, url. auto. }
    destruct (Py.contains name (Spec.normalized song_query)) eqn:E2.
    { exfalso. apply Hs. exists name, url. auto. }
    now split.
  - intros Hn. unfold find_song, find_song_in.
    fold (Spec.normalized song_query). rewrite Hn. reflexivity.
Qed.

Lemma find_song_not_found_witness :
  find_song "  Bohemian Rhapsody " = Ok None /\ find_song " " <> Ok None.
Proof.
  destruct (find_song_not_found "  Bohemian Rhapsody ") as (_ & Hnone & _).
  destruct (find_song_not_found " ") as (_ & _ & Hempty).
  split.
  - apply Hnone.
    + intros [url H]. each_entry H.
    + intros (song & names & H & Hq). each_entry H; each_entry Hq.
    + intros (name & url & H & [Hc|Hc]); each_entry H; discriminate Hc.
  - rewrite Hempty; [discriminate|reflexivity].
Defined.

(** C9: a query that, in lower case and trimmed, is a proper substring
    of exactly one canonical name, and is no canonical name and no alias,
    resolves to the URL of that entry. *)
Theorem find_song_unique_substring (song_query name url : string) :
  In (name, url) music_library ->
  Py.contains (Spec.normalized song_query) name = true ->
  Spec.normalized song_query <> name ->
  (forall name' url', In (name', url') music_library ->
     Py.contains (Spec.normalized song_query) name' = true -> name' = name) ->
  ~ Spec.exact_match (Spec.normalized song_query) ->
  ~ Spec.alias_hit (Spec.normalized song_query) ->
  find_song song_query = Ok (Some url).
Proof.
  intros Hin Hsub Hproper Honly He Ha.
  rewrite find_song_unmatched by assumption. f_equal.
  apply partial_match_only with (name := name); [assumption|assumption|].
  intros name' url' Hin' [Hc|Hc].
  - pose proof (Honly _ _ Hin' Hc) as ->.
    now destruct (library_antichain _ _ _ _ Hin' Hin (contains_refl name)).
  - pose proof (contains_trans _ _ _ Hc Hsub) as Hnn.
    now destruct (library_antichain _ _ _ _ Hin' Hin Hnn).
Qed.

Lemma find_song_unique_substring_witness :
  find_song " Till Dawn"
  = Ok (Some "https://open.spotify.com/track/3e7sxremeOE3wTySiOhGiP").
Proof.
  apply (find_song_unique_substring " Till Dawn" "dusk till dawn").
  - simpl. tauto.
  - reflexivity.
  - discriminate.
  - intros name' url' H Hc. each_entry H; try reflexivity; discriminate Hc.
  - intros [u H]. each_entry H.
  - intros (song & names & H & Hq). each_entry H; each_entry Hq.
Defined.

End SongResolverClaims.

(** ** The command cascade *)

Section Cascade.

Import VoiceAssistant.

Lemma website_match_None (c : string) :
  website_match c = None <-> Spec.no_website_trigger c.
Proof.
  unfold website_match, Spec.no_website_trigger. split.
  - intros H cmd target Hin.
    exact (find_none _ _ H (cmd, target) Hin).
  - intros H. destruct (find _ website_commands) as [[cmd target]|] eqn:E;
      [|reflexivity].
    apply find_some in E as [Hin Hc]. simpl in Hc.
    rewrite (H cmd target Hin) in Hc. discriminate.
Qed.

Lemma website_match_Some (c : string) entry :
  website_match c = Some entry -> ~ Spec.no_website_trigger c.
Proof.
  intros H Hno. apply website_match_None in Hno. congruence.
Qed.

Lemma exit_phrase_iff (c : string) :
  existsb (fun exit_cmd => Py.contains exit_cmd c) exit_commands = true
  <-> Spec.has_exit_phrase c.
Proof. unfold Spec.has_exit_phrase. apply existsb_exists. Qed.

Lemma play_music_returns (c : string) :
  snd (play_music c) = Ok "continue".
Proof.
  unfold play_music.
  destruct (negb (Py.truthy _)); [reflexivity|].
  destruct (find_song_never_raises (Py.strip (Py.replace "play" "" c)))
    as [r ->].
  destruct r as [url|]; [destruct (Py.truthy url)|]; reflexivity.
Qed.

(** No path of [process_command] raises: the music branch is the only
    one that could, through [find_song]. *)
Lemma process_command_never_raises (w : env) (command : string) :
  exists r, snd (process_command w command) = Ok r.
Proof.
  unfold process_command.
  destruct (negb (Py.truthy _)); [eexists; reflexivity|].
  destruct (website_match _) as [[cmd [url message]]|];
    [eexists; reflexivity|].
  destruct (Py.startswith "play" _);
    [rewrite play_music_returns; eexists; reflexivity|].
  repeat (match goal with
          | |- context [if ?b then _ else _] => destruct b
          end; [eexists; reflexivity|]).
  eexists; reflexivity.
Qed.

(** The music branch is taken for a command that starts with "play" and
    holds no website trigger; the query is what is left of the command
    when every "play" is taken out of it. *)
Lemma process_command_play (w : env) (command : string) :
  Spec.no_website_trigger (Spec.normalized command) ->
  Py.startswith "play" (Spec.normalized command) = true ->
  process_command w command = play_music (Spec.normalized command).
Proof.
  intros Hweb Hplay. unfold process_command.
  fold (Spec.normalized command).
  destruct (Spec.normalized command) as [|a c] eqn:E; [discriminate|].
  cbn [Py.truthy negb].
  apply website_match_None in Hweb. rewrite Hweb, Hplay. reflexivity.
Qed.

(** An empty query gets the clarifying reply and nothing else: no
    search, no browser. *)
Lemma play_music_empty_query (c : string) :
  Py.strip (Py.replace "play" "" c) = "" ->
  play_music c = ([Speak "Please specify a song to play."], Ok "continue").
Proof. intros H. unfold play_music. rewrite H. reflexivity. Qed.

(** Where the code and the words "leading token stripped" agree: when
    the token occurs at the start only. *)
Lemma leading_token_agreement (a : ascii) (token rest : string) :
  Py.contains (String a token) rest = false ->
  Py.strip (Py.replace (String a token) "" (String a token ++ rest))
  = Spec.strip_leading_token (String a token) (String a token ++ rest).
Proof.
  intros H. unfold Spec.strip_leading_token.
  now rewrite replace_leading_only, drop_app.
Qed.

(** C2 at "play coldplay": the search is for "cold", every "play" being
    taken out, where the command without its leading token is
    "coldplay"; and "play play" is answered as a command without a song,
    where the command without its leading token is "play". *)
Lemma play_query_loses_every_play (w : env) :
  process_command w "play coldplay"
  = ([Speak "Sorry, I couldn't find cold in my music library.";
      Speak "Let me search for it on YouTube instead.";
      OpenBrowser "https://www.youtube.com/results?search_query=cold"],
     Ok "continue")
  /\ Spec.strip_leading_token "play" (Spec.normalized "play coldplay")
     = "coldplay"
  /\ process_command w "play play"
     = ([Speak "Please specify a song to play."], Ok "continue")
  /\ Spec.strip_leading_token "play" (Spec.normalized "play play") = "play".
Proof. repeat split; reflexivity. Qed.

(** C5: a command with "news" and "time" in it, no website trigger and
    no leading "play", is answered by [get_news], in the category its
    keywords choose and in "general" when it has none; the answer does
    not depend on the clock, which only the time and date branches
    read. *)
Theorem news_before_time (w : env) (command : string) :
  Spec.no_website_trigger (Spec.normalized command) ->
  Py.startswith "play" (Spec.normalized command) = false ->
  Py.contains "news" (Spec.normalized command) = true ->
  Py.contains "time" (Spec.normalized command) = true ->
  process_command w command
  = (fst (get_news w (news_category (Spec.normalized command)) "in"),
     Ok "continue")
  /\ (Spec.no_category_keyword (Spec.normalized command) ->
      process_command w command = (fst (get_news w "general" "in"),
                                   Ok "continue"))
  /\ (forall clock,
        process_command (Spec.with_clock clock w) command
        = process_command w command).
Proof.
  intros Hweb Hplay Hnews Htime.
  assert (Hrun : forall w', process_command w' command
            = (fst (get_news w' (news_category (Spec.normalized command)) "in"),
               Ok "continue")).
  { intros w'. unfold process_command. fold (Spec.normalized command).
    destruct (Spec.normalized command) as [|a c] eqn:E; [discriminate|].
    cbn [Py.truthy negb].
    apply website_match_None in Hweb. rewrite Hweb, Hplay, Hnews.
    reflexivity. }
  split; [apply Hrun|split].
  - intros (H1 & H2 & H3 & H4 & H5). rewrite Hrun.
    unfold news_category. rewrite H1, H2, H3, H4, H5. reflexivity.
  - intros clock. rewrite !Hrun. reflexivity.
Qed.

Lemma news_before_time_witness :
  process_command Samples.quiet_world "News at this time"
  = ([Speak "No news articles found at the moment."], Ok "continue")
  /\ process_command Samples.busy_world "News at this time"
     = ([Speak "Here are the top 2 headlines:";
         Speak "News 1: Rocq 9.3 released"; Sleep 500;
         Speak "News 2: No title available"; Sleep 500],
        Ok "continue").
Proof.
  assert (Hweb : Spec.no_website_trigger (Spec.normalized "News at this time")).
  { intros cmd target H. each_entry H; reflexivity. }
  assert (Hcat : Spec.no_category_keyword (Spec.normalized "News at this time")).
  { repeat split. }
  split.
  - pose proof (news_before_time Samples.quiet_world "News at this time"
                  Hweb eq_refl eq_refl eq_refl) as (_ & H & _).
    exact (H Hcat).
  - pose proof (news_before_time Samples.busy_world "News at this time"
                  Hweb eq_refl eq_refl eq_refl) as (_ & H & _).
    exact (H Hcat).
Defined.

(** C10: [process_command] returns "continue" or "quit" on every
    command, and "quit" exactly when the command, in lower case and
    trimmed, holds no website trigger, does not start with "play", holds
    none of "news", "time", "date", and holds an exit phrase. *)
Theorem process_command_continue_or_quit (w : env) (command : string) :
  (snd (process_command w command) = Ok "continue"
   \/ snd (process_command w command) = Ok "quit")
  /\ (snd (process_command w command) = Ok "quit" <->
      Spec.no_website_trigger (Spec.normalized command)
      /\ Py.startswith "play" (Spec.normalized command) = false
      /\ Py.contains "news" (Spec.normalized command) = false
      /\ Py.contains "time" (Spec.normalized command) = false
      /\ Py.contains "date" (Spec.normalized command) = false
      /\ Spec.has_exit_phrase (Spec.normalized command)).
Proof.
  unfold process_command. fold (Spec.normalized command).
  set (c := Spec.normalized command).
  destruct (negb (Py.truthy c)) eqn:Eempty.
  { split; [now left|]. split; [discriminate|].
    intros (_ & _ & _ & _ & _ & (phrase & Hin & Hc)).
    destruct c; [|discriminate]. each_entry Hin; discriminate. }
  destruct (website_match c) as [[cmd [url message]]|] eqn:Eweb.
  { split; [now left|]. split; [discriminate|].
    intros (Hweb & _). now apply website_match_Some in Eweb. }
  destruct (Py.startswith "play" c) eqn:Eplay.
  { rewrite play_music_returns. split; [now left|].
    split; [discriminate|]. intros (_ & H & _). discriminate. }
  destruct (Py.contains "news" c) eqn:Enews.
  { split; [now left|]. split; [discriminate|].
    intros (_ & _ & H & _). discriminate. }
  destruct (Py.contains "time" c) eqn:Etime.
  { split; [now left|]. split; [discriminate|].
    intros (_ & _ & _ & H & _). discriminate. }
  destruct (Py.contains "date" c) eqn:Edate.
  { split; [now left|]. split; [discriminate|].
    intros (_ & _ & _ & _ & H & _). discriminate. }
  destruct (existsb _ exit_commands) eqn:Eexit.
  - split; [now right|]. split; [|reflexivity]. intros _.
    apply website_match_None in Eweb. apply exit_phrase_iff in Eexit.
    repeat split; assumption.
  - split; [now left|]. split; [discriminate|].
    intros (_ & _ & _ & _ & _ & H). apply exit_phrase_iff in H. congruence.
Qed.


(** C8: with a news key configured and a reply that holds no article,
    [get_news] speaks the notice, and nothing else, and returns
    [False]. *)
Theorem get_news_no_articles (w : env) (category country key : string) :
  newsapi_key w = Some key ->
  Py.truthy key = true ->
  requests_get w (news_url country category key) = HttpJson [] ->
  get_news w category country
  = ([Speak "No news articles found at the moment."], false).
Proof.
  intros Hkey Htruthy Hget. unfold get_news.
  rewrite Hkey, Htruthy, Hget. reflexivity.
Qed.

Lemma get_news_no_articles_witness :
  get_news Samples.quiet_world "sports" "in"
  = ([Speak "No news articles found at the moment."], false).
Proof.
  apply (get_news_no_articles Samples.quiet_world "sports" "in" "demo-key");
    reflexivity.
Defined.

(** C4 at "**Hello** there": [ai_process] takes the asterisks out and
    trims, and that is all; the period is added, and the runs of white
    space are collapsed, by [AIClient._clean_response] only. *)
Lemma ai_process_adds_no_period :
  ai_process Samples.quiet_world "say hello" = "Hello there"
  /\ AIClient._clean_response "**Hello** there" = "Hello there."
  /\ (forall w command text,
        client w = true ->
        generate_content w "gemini-2.0-flash-exp" (enhanced_prompt command)
        = Some text ->
        ai_process w command = Py.strip (Py.replace "*" "" text))
  /\ Py.strip (Py.replace "*" "" "so   *many*   spaces")
     = "so   many   spaces".
Proof.
  repeat split.
  intros w command text Hc Hg. unfold ai_process. now rewrite Hc, Hg.
Qed.

End Cascade.

(** ** The dialogue loop *)

Section Loop.

Import VoiceAssistant.

Variable dispatch : env -> string -> trace * result string.

Lemma iteration_listen_fails (s : session) (t : turn) :
  Spec.listen_fails t ->
  iteration dispatch s t
  = (fst (listen_failed s), snd (listen_failed s), Next).
Proof.
  intros H. unfold iteration, try_block. rewrite H.
  now destruct (listen_failed s).
Qed.

Lemma listen_failed_below (s : session) :
  S (consecutive_errors s) < max_consecutive_errors ->
  listen_failed s = ([], set_errors (S (consecutive_errors s)) s).
Proof.
  intros H. unfold listen_failed.
  destruct (Nat.leb_spec max_consecutive_errors (S (consecutive_errors s)));
    [lia|reflexivity].
Qed.

Lemma listen_failed_burst (s : session) :
  max_consecutive_errors <= S (consecutive_errors s) ->
  listen_failed s
  = ([Speak "I'm having trouble hearing you. Please check your microphone.";
      Sleep 2000],
     set_errors 0 s).
Proof.
  intros H. unfold listen_failed.
  destruct (Nat.leb_spec max_consecutive_errors (S (consecutive_errors s)));
    [reflexivity|lia].
Qed.

(** Failed listens below the threshold: nothing is spoken, each one is
    counted, the loop goes on. *)
Lemma loop_silent_failures (turns : list turn) (s : session) :
  should_quit s = false ->
  Forall Spec.listen_fails turns ->
  consecutive_errors s + List.length turns < max_consecutive_errors ->
  loop dispatch s turns
  = ([], set_errors (consecutive_errors s + List.length turns) s, Running).
Proof.
  revert s. induction turns as [|t turns IH]; intros s Hq Hall Hlt.
  - simpl. rewrite Hq, Nat.add_0_r. now destruct s.
  - inversion Hall as [|? ? Ht Hrest]; subst. simpl in Hlt.
    cbn [loop]. rewrite Hq, (iteration_listen_fails s t Ht).
    rewrite listen_failed_below by lia. cbn [fst snd].
    rewrite IH; [|exact Hq|assumption|simpl; lia].
    simpl. do 2 f_equal. unfold set_errors. simpl. f_equal. lia.
Qed.

Lemma loop_app (xs ys : list turn) (s : session) :
  loop dispatch s (xs ++ ys)
  = match loop dispatch s xs with
    | (tr, s', Running) =>
        match loop dispatch s' ys with
        | (tr', s'', st) => ((tr ++ tr')%list, s'', st)
        end
    | stopped => stopped
    end.
Proof.
  revert s. induction xs as [|t xs IH]; intros s.
  - simpl. destruct (should_quit s) eqn:Hq.
    + destruct ys; simpl; rewrite Hq; reflexivity.
    + now destruct (loop dispatch s ys) as [[tr' s''] st].
  - simpl. destruct (should_quit s); [reflexivity|].
    destruct (iteration dispatch s t) as [[tr s'] [|]]; [|reflexivity].
    rewrite IH.
    destruct (loop dispatch s' xs) as [[tr1 s1] [|]]; [|reflexivity].
    destruct (loop dispatch s1 ys) as [[tr2 s2] st].
    now rewrite app_assoc.
Qed.

End Loop.

Section LoopClaims.

Import VoiceAssistant.

Lemma except_Exception_below (s : session) :
  S (consecutive_errors s) < max_consecutive_errors ->
  except_Exception s = ([], set_errors (S (consecutive_errors s)) s).
Proof.
  intros H. unfold except_Exception.
  destruct (Nat.leb_spec max_consecutive_errors (S (consecutive_errors s)));
    [lia|reflexivity].
Qed.

Lemma except_Exception_burst (s : session) :
  max_consecutive_errors <= S (consecutive_errors s) ->
  except_Exception s
  = ([Speak "I'm experiencing technical difficulties. Restarting...";
      Sleep 3000],
     set_errors 0 s).
Proof.
  intros H. unfold except_Exception.
  destruct (Nat.leb_spec max_consecutive_errors (S (consecutive_errors s)));
    [reflexivity|lia].
Qed.

Lemma firstn_Forall {A : Type} (P : A -> Prop) (k : nat) (xs : list A) :
  Forall P xs -> Forall P (firstn k xs).
Proof.
  intros H. revert k. induction H as [|x xs Hx Hxs IH]; intros [|k]; simpl;
    constructor; auto.
Qed.

(** C7: a pass in which a text is recognised does not depend on the
    count of earlier errors: the [try] block ends, or raises, with the
    counter at zero whatever the text and whatever the dispatcher does,
    so the pass ends with the counter at zero, or at one when an
    exception was caught and counted.  With [process_command] as the
    dispatcher it ends at zero. *)
Theorem recognition_resets_counter
  (dispatch : env -> string -> trace * result string)
  (s : session) (t : turn) (text : string) :
  microphone t = Recognized text ->
  consecutive_errors (snd (fst (try_block dispatch s t))) = 0
  /\ iteration dispatch s t = iteration dispatch (set_errors 0 s) t
  /\ consecutive_errors (snd (fst (iteration dispatch s t)))
     = match snd (try_block dispatch s t) with
       | Raise e => if is_Exception e then 1 else 0
       | Ok _ => 0
       end
  /\ consecutive_errors (snd (fst (iteration process_command s t))) = 0.
Proof.
  intros Hm.
  assert (Hgen : forall d,
            consecutive_errors (snd (fst (try_block d s t))) = 0
            /\ consecutive_errors (snd (fst (iteration d s t)))
               = match snd (try_block d s t) with
                 | Raise e => if is_Exception e then 1 else 0
                 | Ok _ => 0
                 end).
  { intros d. unfold iteration, try_block. rewrite Hm.
    cbn [listen_for_command].
    destruct (Py.startswith "jarvis" (Py.lower text)); [|now split].
    destruct (Py.truthy _); [|now split].
    destruct (d (world t) _) as [tr [res|e]].
    - destruct (String.eqb res "quit"); now split.
    - cbn [fst snd]. destruct (is_Exception e); now split. }
  split; [apply Hgen|]. split.
  { unfold iteration, try_block. rewrite Hm. reflexivity. }
  split; [apply Hgen|].
  destruct (Hgen process_command) as [_ ->].
  unfold try_block. rewrite Hm. cbn [listen_for_command].
  destruct (Py.startswith "jarvis" (Py.lower text)); [|reflexivity].
  destruct (Py.truthy _); [|reflexivity].
  destruct (process_command_never_raises (world t)
              (Py.strip (Py.replace "jarvis" "" (Py.lower text)))) as [r Hr].
  destruct (process_command _ _) as [tr res]. simpl in Hr. subst res.
  now destruct (String.eqb r "quit").
Qed.

Lemma recognition_resets_counter_witness :
  consecutive_errors
    (snd (fst (iteration process_command
                 {| consecutive_errors := 4; should_quit := false |}
                 (Samples.spoken_turn "what a nice day" Samples.quiet_world))))
  = 0
  /\ consecutive_errors
       (snd (fst (iteration Samples.failing_dispatch
                    {| consecutive_errors := 4; should_quit := false |}
                    (Samples.spoken_turn "Jarvis open google"
                       Samples.quiet_world))))
     = 1.
Proof.
  split.
  - exact (proj2 (proj2 (proj2
      (recognition_resets_counter process_command
         {| consecutive_errors := 4; should_quit := false |}
         (Samples.spoken_turn "what a nice day" Samples.quiet_world)
         "what a nice day" eq_refl)))).
  - exact (proj1 (proj2 (proj2
      (recognition_resets_counter Samples.failing_dispatch
         {| consecutive_errors := 4; should_quit := false |}
         (Samples.spoken_turn "Jarvis open google" Samples.quiet_world)
         "Jarvis open google" eq_refl)))).
Defined.

(** C3 at "jarvis who is jarvis": every "jarvis" is taken out, so the
    pass is the one of "jarvis who is" and the dispatcher is given
    "who is", where the text without its leading token is
    "who is jarvis"; and "jarvis jarvis" gets the prompt of an empty
    command, where the text without its leading token is "jarvis". *)
Lemma wake_word_removed_everywhere
  (dispatch : env -> string -> trace * result string)
  (s : session) (w : env) :
  iteration dispatch s (Samples.spoken_turn "jarvis who is jarvis" w)
  = iteration dispatch s (Samples.spoken_turn "jarvis who is" w)
  /\ iteration Samples.echo_dispatch s
       (Samples.spoken_turn "jarvis who is jarvis" w)
     = ([Speak "who is"], set_errors 0 s, Next)
  /\ Spec.strip_leading_token "jarvis" "jarvis who is jarvis" = "who is jarvis"
  /\ iteration dispatch s (Samples.spoken_turn "jarvis jarvis" w)
     = ([Speak "Yes, how can I help you?"], set_errors 0 s, Next)
  /\ Spec.strip_leading_token "jarvis" "jarvis jarvis" = "jarvis".
Proof. repeat split; reflexivity. Qed.

End LoopClaims.

(** ** What the loop does besides *)

Section LoopFacts.

Import VoiceAssistant.

Variable dispatch : env -> string -> trace * result string.

(** What the dispatcher is given: the recognised text in lower case,
    every "jarvis" taken out, trimmed. *)
Lemma try_block_dispatches (s : session) (t : turn) (text : string) :
  microphone t = Recognized text ->
  Py.startswith "jarvis" (Py.lower text) = true ->
  Py.truthy (Py.strip (Py.replace "jarvis" "" (Py.lower text))) = true ->
  try_block dispatch s t
  = match dispatch (world t)
            (Py.strip (Py.replace "jarvis" "" (Py.lower text))) with
    | (tr, Raise e) => (tr, set_errors 0 s, Raise e)
    | (tr, Ok res) =>
        if String.eqb res "quit"
        then (tr, set_quit (set_errors 0 s), Ok Break)
        else (tr, set_errors 0 s, Ok Next)
    end.
Proof.
  intros Hm Hwake Hcmd. unfold try_block. rewrite Hm.
  cbn [listen_for_command]. now rewrite Hwake, Hcmd.
Qed.

(** A text without the wake word at its start is dropped in silence. *)
Lemma try_block_no_wake_word (s : session) (t : turn) (text : string) :
  microphone t = Recognized text ->
  Py.startswith "jarvis" (Py.lower text) = false ->
  iteration dispatch s t = ([], set_errors 0 s, Next).
Proof.
  intros Hm Hwake. unfold iteration, try_block. rewrite Hm.
  cbn [listen_for_command]. now rewrite Hwake.
Qed.


End LoopFacts.

(** ** Examples *)

Section Examples.

Import VoiceAssistant.

Example lower_example : Py.lower "Play Shape Of YOU" = "play shape of you".
Proof. reflexivity. Qed.

Example strip_example : Py.strip "  dusk till dawn  " = "dusk till dawn".
Proof. reflexivity. Qed.

Example replace_example :
  Py.replace "play" "" "play the player" = " the er"
  /\ Py.replace " " "+" "a b  c" = "a+b++c"
  /\ Py.replace "aa" "" "aaa" = "a".
Proof. repeat split; reflexivity. Qed.

Example split_join_example :
  Py.split "  Hello   there " = ["Hello"; "there"]
  /\ Py.join " " ["Hello"; "there"] = "Hello there".
Proof. split; reflexivity. Qed.

Example str_example : Py.str 3 = "3" /\ Py.str 0 = "0" /\ Py.str 12 = "12".
Proof. repeat split; reflexivity. Qed.

Example contains_example :
  Py.contains "" "skyfall" = true /\ Py.contains "fall" "skyfall" = true
  /\ Py.contains "falls" "skyfall" = false.
Proof. repeat split; reflexivity. Qed.

Example clean_response_example :
  AIClient._clean_response "" = "I'm sorry, I couldn't generate a response."
  /\ AIClient._clean_response "# Title:  `code`  is *fine*!" = "Title: code is fine!"
  /\ AIClient._clean_response " ** " = "".
Proof. repeat split; reflexivity. Qed.

Example find_song_example :
  find_song "Shape of U"
  = Ok (Some "https://open.spotify.com/track/7qiZfU4dY1lWllzX7mPBI3")
  /\ find_song "  SUGAR "
     = Ok (Some "https://open.spotify.com/track/2iuZJX9X9P0GKaE93xcPjk")
  /\ find_song "the song perfect please"
     = Ok (Some "https://open.spotify.com/track/0tgVpDi06FyKpA1z0VMD4v").
Proof. repeat split; reflexivity. Qed.

Example process_command_example :
  process_command Samples.quiet_world "Please OPEN YouTube now"
  = ([Speak "Opening YouTube"; OpenBrowser "https://youtube.com"],
     Ok "continue")
  /\ process_command Samples.quiet_world "play"
     = ([Speak "Please specify a song to play."], Ok "continue")
  /\ process_command Samples.quiet_world "play Faded"
     = ([Speak "Playing faded";
         OpenBrowser "https://open.spotify.com/track/7BKLCZ1jbUBVqRi2FVlTVw"],
        Ok "continue")
  /\ process_command Samples.quiet_world "what time is it"
     = ([Speak "The current time is 10:30 AM"], Ok "continue")
  /\ process_command Samples.quiet_world "what is the date today"
     = ([Speak "Today is November 03, 2026"], Ok "continue")
  /\ process_command Samples.quiet_world "ok bye"
     = ([Speak "Goodbye! Have a great day!"], Ok "quit")
  /\ process_command Samples.quiet_world "tell me a joke"
     = ([Speak "Let me think about that..."; Speak "Hello there"],
        Ok "continue")
  /\ process_command Samples.busy_world "tell me a joke"
     = ([Speak "Let me think about that...";
         Speak "I'm having trouble processing that request right now."],
        Ok "continue").
Proof. repeat split; reflexivity. Qed.

Example run_example :
  run [ Samples.spoken_turn "what a nice day" Samples.quiet_world;
        Samples.silent_turn Samples.quiet_world;
        Samples.spoken_turn "Jarvis" Samples.quiet_world;
        Samples.spoken_turn "Jarvis stop" Samples.quiet_world;
        Samples.spoken_turn "Jarvis open google" Samples.quiet_world ]
  = ([Speak "Jarvis is now online and ready to assist you!";
      Speak "Say 'Jarvis' followed by your command.";
      Speak "Yes, how can I help you?";
      Speak "Goodbye! Have a great day!"],
     {| consecutive_errors := 0; should_quit := true |}, Stopped).
Proof. reflexivity. Qed.

Example run_interrupt_example :
  run [ Samples.silent_turn Samples.quiet_world;
        {| microphone := Interrupted; world := Samples.quiet_world |};
        Samples.spoken_turn "Jarvis stop" Samples.quiet_world ]
  = ([Speak "Jarvis is now online and ready to assist you!";
      Speak "Say 'Jarvis' followed by your command.";
      Speak "Shutting down..."],
     {| consecutive_errors := 1; should_quit := false |}, Stopped).
Proof. reflexivity. Qed.

End Examples.

(** ** More on the string primitives: case and white space *)

Section CaseAndSpace.

Lemma isspace_lower_char (c : ascii) :
  Py.isspace (Py.lower_char c) = Py.isspace c.
Proof. destruct c as [[] [] [] [] [] [] [] []]; reflexivity. Qed.

Lemma lower_char_idem (c : ascii) :
  Py.lower_char (Py.lower_char c) = Py.lower_char c.
Proof. destruct c as [[] [] [] [] [] [] [] []]; reflexivity. Qed.

Lemma lower_idem (s : string) : Py.lower (Py.lower s) = Py.lower s.
Proof.
  induction s as [|c s IH]; simpl; [reflexivity|].
  now rewrite lower_char_idem, IH.
Qed.

Lemma lower_lstrip (s : string) :
  Py.lower (Py.lstrip s) = Py.lstrip (Py.lower s).
Proof.
  induction s as [|c s IH]; simpl; [reflexivity|].
  rewrite isspace_lower_char. now destruct (Py.isspace c).
Qed.

Lemma lower_rstrip (s : string) :
  Py.lower (Py.rstrip s) = Py.rstrip (Py.lower s).
Proof.
  induction s as [|c s IH]; simpl; [reflexivity|].
  rewrite <- IH, isspace_lower_char.
  destruct (Py.rstrip s); simpl; [now destruct (Py.isspace c)|reflexivity].
Qed.

Lemma lower_strip (s : string) :
  Py.lower (Py.strip s) = Py.strip (Py.lower s).
Proof. unfold Py.strip. now rewrite lower_rstrip, lower_lstrip. Qed.

Lemma rstrip_cons (c : ascii) (t : string) :
  Py.rstrip (String c t)
  = if Py.truthy (Py.rstrip t) then String c (Py.rstrip t)
    else if Py.isspace c then "" else String c "".
Proof. simpl. now destruct (Py.rstrip t). Qed.

Lemma rstrip_idem (s : string) : Py.rstrip (Py.rstrip s) = Py.rstrip s.
Proof.
  induction s as [|c s IH]; [reflexivity|].
  rewrite rstrip_cons.
  destruct (Py.truthy (Py.rstrip s)) eqn:E.
  - rewrite rstrip_cons, IH, E. reflexivity.
  - destruct (Py.isspace c) eqn:Ec; [reflexivity|].
    simpl. now rewrite Ec.
Qed.

(** What [lstrip] gives is empty or starts with something else than
    white space. *)
Lemma lstrip_head (s : string) :
  Py.lstrip s = ""
  \/ exists c t, Py.lstrip s = String c t /\ Py.isspace c = false.
Proof.
  induction s as [|c s IH]; simpl; [now left|].
  destruct (Py.isspace c) eqn:E; [exact IH|].
  right. now exists c, s.
Qed.

Lemma lstrip_rstrip_head (c : ascii) (t : string) :
  Py.isspace c = false ->
  Py.lstrip (Py.rstrip (String c t)) = Py.rstrip (String c t).
Proof.
  intros E. rewrite rstrip_cons.
  destruct (Py.truthy (Py.rstrip t)); rewrite ?E; simpl; now rewrite E.
Qed.

Lemma strip_idem (s : string) : Py.strip (Py.strip s) = Py.strip s.
Proof.
  unfold Py.strip.
  destruct (lstrip_head s) as [->|(c & t & -> & E)]; [reflexivity|].
  now rewrite lstrip_rstrip_head, rstrip_idem.
Qed.

Lemma normalized_idem (s : string) :
  Spec.normalized (Spec.normalized s) = Spec.normalized s.
Proof.
  unfold Spec.normalized.
  now rewrite lower_strip, lower_idem, strip_idem.
Qed.

End CaseAndSpace.

(** ** The song resolver: what is found *)

Section SongResolverMore.

Import VoiceAssistant.

Lemma dict_get_None_inv {V : Type} (d : list (string * V)) (k : string) :
  dict_get d k = None -> forall v, ~ In (k, v) d.
Proof.
  induction d as [|[k' v'] d IH]; simpl; intros H v; [tauto|].
  destruct (String.eqb k k') eqn:E; [discriminate|].
  intros [[= -> ->]|Hin].
  - rewrite String.eqb_refl in E. discriminate.
  - exact (IH H v Hin).
Qed.

Lemma alias_match_Some lib aliases (q : string) r :
  alias_match lib aliases q = Some r ->
  exists song names,
    In (song, names) aliases /\ In q names /\ r = dict_item lib song.
Proof.
  induction aliases as [|[song names] rest IH]; simpl; [discriminate|].
  destruct (list_mem q names) eqn:E.
  - intros [= <-]. apply list_mem_In in E.
    exists song, names. auto.
  - intros H. destruct (IH H) as (s & n & Hin & Hq & Hr).
    exists s, n. auto.
Qed.

Lemma alias_match_None_inv lib aliases (q : string) :
  alias_match lib aliases q = None ->
  forall song names, In (song, names) aliases -> ~ In q names.
Proof.
  induction aliases as [|[song names] rest IH]; simpl; intros H s n; [tauto|].
  destruct (list_mem q names) eqn:E; [discriminate|].
  intros [[= -> ->]|Hin] Hq.
  - apply list_mem_In in Hq. congruence.
  - exact (IH H s n Hin Hq).
Qed.

Lemma partial_match_None_inv lib (q : string) :
  partial_match lib q = None ->
  forall name url, In (name, url) lib ->
    Py.contains q name = false /\ Py.contains name q = false.
Proof.
  induction lib as [|[name url] rest IH]; simpl; intros H n u; [tauto|].
  destruct (Py.contains q name || Py.contains name q) eqn:E; [discriminate|].
  intros [[= -> ->]|Hin].
  - now apply orb_false_iff in E.
  - exact (IH H n u Hin).
Qed.

Lemma dict_item_Ok {V : Type} (d : list (string * V)) (k : string) (v : V) :
  dict_item d k = Ok v -> In (k, v) d.
Proof.
  unfold dict_item. destruct (dict_get d k) eqn:E; [|discriminate].
  intros [= ->]. now apply dict_get_In.
Qed.

Lemma library_urls_truthy (name url : string) :
  In (name, url) music_library -> Py.truthy url = true.
Proof. intros H. each_entry H; reflexivity. Qed.

(** A query that is, in lower case and trimmed, a canonical name or an
    alias resolves to the URL of that entry. *)
Theorem find_song_by_name_or_alias (song_query song url : string) :
  In (song, url) music_library ->
  Spec.normalized song_query = song
  \/ (exists names, In (song, names) song_aliases
                    /\ In (Spec.normalized song_query) names) ->
  find_song song_query = Ok (Some url).
Proof.
  intros Hlib Hq. unfold find_song, find_song_in.
  change (Py.strip (Py.lower song_query)) with (Spec.normalized song_query).
  set (n := Spec.normalized song_query) in *. clearbody n.
  destruct Hq as [->|(names & Hal & Hn)].
  - each_entry Hlib; reflexivity.
  - each_entry Hal; each_entry Hn; each_entry Hlib; reflexivity.
Qed.

Lemma find_song_by_name_or_alias_witness :
  find_song "  Dusk To Dawn"
  = Ok (Some "https://open.spotify.com/track/3e7sxremeOE3wTySiOhGiP")
  /\ find_song "BELIEVER "
     = Ok (Some "https://open.spotify.com/track/0pqnGHJpmpxLKifKRmU6WP").
Proof.
  split.
  - apply (find_song_by_name_or_alias _ "dusk till dawn").
    + simpl. tauto.
    + right. exists ["dusk till dawn"; "dusk to dawn"; "dusk until dawn"].
      split; simpl; tauto.
  - apply (find_song_by_name_or_alias _ "believer").
    + simpl. tauto.
    + now left.
Defined.

(** What [find_song] returns comes from the library: a URL it returns is
    the non-empty URL of an entry that matches the query, exactly, by an
    alias or by containment; and [None] is returned only when nothing
    matches. *)
Theorem find_song_sound (song_query : string) :
  (forall url, find_song song_query = Ok (Some url) ->
     Py.truthy url = true
     /\ exists name,
          In (name, url) music_library
          /\ (Spec.normalized song_query = name
              \/ (exists names, In (name, names) song_aliases
                                /\ In (Spec.normalized song_query) names)
              \/ Py.contains (Spec.normalized song_query) name = true
              \/ Py.contains name (Spec.normalized song_query) = true))
  /\ (find_song song_query = Ok None ->
      ~ Spec.exact_match (Spec.normalized song_query)
      /\ ~ Spec.alias_hit (Spec.normalized song_query)
      /\ ~ Spec.substring_hit (Spec.normalized song_query)).
Proof.
  unfold find_song, find_song_in.
  change (Py.strip (Py.lower song_query)) with (Spec.normalized song_query).
  set (n := Spec.normalized song_query).
  destruct (dict_get music_library n) as [u|] eqn:Eexact.
  { split; [|discriminate]. intros url [= <-].
    apply dict_get_In in Eexact.
    split; [now apply (library_urls_truthy n)|].
    exists n. auto. }
  destruct (alias_match music_library song_aliases n) as [[u|e]|] eqn:Ealias.
  { split; [|discriminate]. intros url [= <-].
    apply alias_match_Some in Ealias as (song & names & Hal & Hn & Hitem).
    symmetry in Hitem. apply dict_item_Ok in Hitem.
    split; [now apply (library_urls_truthy song)|].
    exists song. split; [assumption|]. right. left. now exists names. }
  { split; discriminate. }
  split.
  - intros url H.
    assert (Hp : partial_match music_library n = Some url) by congruence.
    apply partial_match_Some in Hp as (name & Hin & Hc).
    split; [now apply (library_urls_truthy name)|].
    exists name. split; [assumption|]. tauto.
  - intros H.
    assert (Hp : partial_match music_library n = None) by congruence.
    repeat split.
    + intros [url Hin]. exact (dict_get_None_inv _ _ Eexact url Hin).
    + intros (song & names & Hal & Hn).
      exact (alias_match_None_inv _ _ _ Ealias song names Hal Hn).
    + intros (name & url & Hin & Hc).
      destruct (partial_match_None_inv _ _ Hp name url Hin) as [H1 H2].
      destruct Hc; congruence.
Qed.

End SongResolverMore.

(** ** The news handler *)

Section News.

Import VoiceAssistant.

Lemma count_app (kind : event -> bool) (a b : trace) :
  Obs.count kind (a ++ b)%list = Obs.count kind a + Obs.count kind b.
Proof. unfold Obs.count. now rewrite filter_app, length_app. Qed.

Lemma speak_truthy (text : string) :
  Py.truthy text = true -> speak text = [Speak text].
Proof. intros H. unfold speak. now rewrite H. Qed.

Lemma speak_headlines_counts (i : nat) (articles : list article) :
  Obs.count Obs.is_speak (speak_headlines i articles) = List.length articles
  /\ Obs.count Obs.is_sleep (speak_headlines i articles) = List.length articles
  /\ Obs.count Obs.is_open (speak_headlines i articles) = 0.
Proof.
  revert i. induction articles as [|a rest IH]; intros i; [now cbn|].
  destruct (IH (S i)) as (H1 & H2 & H3).
  cbn [speak_headlines]. rewrite speak_truthy by reflexivity.
  cbn [app]. unfold Obs.count in *. cbn [filter Obs.is_speak Obs.is_sleep
    Obs.is_open List.length].
  rewrite H1, H2, H3. auto.
Qed.

(** The headline of the article at index [k] is spoken at position
    [2 * k], with the number [i + k], and is followed by the pause. *)
Lemma speak_headlines_nth (articles : list article) (i k : nat) (a : article) :
  nth_error articles k = Some a ->
  nth_error (speak_headlines i articles) (2 * k)
  = Some (Speak ("News " ++ Py.str (i + k) ++ ": " ++ Obs.spoken_title a))
  /\ nth_error (speak_headlines i articles) (S (2 * k)) = Some (Sleep 500).
Proof.
  revert i k. induction articles as [|b rest IH]; intros i k Hk.
  - destruct k; discriminate.
  - cbn [speak_headlines]. rewrite speak_truthy by reflexivity. cbn [app].
    destruct k as [|k].
    + injection Hk as ->. rewrite Nat.add_0_r. now split.
    + simpl in Hk. destruct (IH (S i) k Hk) as [H1 H2].
      replace (2 * S k) with (S (S (2 * k))) by lia.
      cbn [nth_error].
      replace (i + S k) with (S i + k) by lia. now split.
Qed.

End News.

(** ** Characters, words and white space *)

Section Characters.

Variable test : ascii -> bool.

Lemma all_chars_app (a b : string) :
  Obs.all_chars test (a ++ b) = Obs.all_chars test a && Obs.all_chars test b.
Proof.
  induction a as [|c a IH]; simpl; [reflexivity|].
  now rewrite IH, andb_assoc.
Qed.

Lemma all_chars_lstrip (s : string) :
  Obs.all_chars test s = true -> Obs.all_chars test (Py.lstrip s) = true.
Proof.
  induction s as [|c s IH]; simpl; [reflexivity|].
  intros H. apply andb_true_iff in H as [Hc Hs].
  destruct (Py.isspace c); [now apply IH|].
  simpl. now rewrite Hc, Hs.
Qed.

Lemma all_chars_rstrip (s : string) :
  Obs.all_chars test s = true -> Obs.all_chars test (Py.rstrip s) = true.
Proof.
  induction s as [|c s IH]; [reflexivity|].
  cbn [Obs.all_chars]. intros H. apply andb_true_iff in H as [Hc Hs].
  rewrite rstrip_cons. specialize (IH Hs).
  destruct (Py.truthy (Py.rstrip s)).
  - simpl. now rewrite Hc, IH.
  - destruct (Py.isspace c); simpl; [reflexivity|now rewrite Hc].
Qed.

Lemma all_chars_strip (s : string) :
  Obs.all_chars test s = true -> Obs.all_chars test (Py.strip s) = true.
Proof.
  intros H. unfold Py.strip. now apply all_chars_rstrip, all_chars_lstrip.
Qed.

(** Replacing keeps what holds of every character of the text and of
    the replacement. *)
Lemma all_chars_replace_from (old new s : string) (skip : nat) :
  Obs.all_chars test new = true ->
  Obs.all_chars test s = true ->
  Obs.all_chars test (Py.replace_from old new s skip) = true.
Proof.
  intros Hnew. revert skip.
  induction s as [|c s IH]; intros skip H; [reflexivity|].
  cbn [Obs.all_chars] in H. apply andb_true_iff in H as [Hc Hs].
  cbn [Py.replace_from]. destruct skip as [|k]; [|now apply IH].
  destruct (Py.startswith old (String c s)).
  - rewrite all_chars_app, Hnew. now apply IH.
  - cbn [Obs.all_chars]. rewrite Hc. now apply IH.
Qed.

Lemma all_chars_replace (old new s : string) :
  Obs.all_chars test new = true ->
  Obs.all_chars test s = true ->
  Obs.all_chars test (Py.replace old new s) = true.
Proof. apply all_chars_replace_from. Qed.

Lemma all_chars_rev_string (acc s : string) :
  Obs.all_chars test (Py.rev_string acc s)
  = Obs.all_chars test acc && Obs.all_chars test s.
Proof.
  revert acc. induction s as [|c s IH]; intros acc; simpl.
  - now rewrite andb_true_r.
  - rewrite IH. simpl. now destruct (test c), (Obs.all_chars test acc).
Qed.

Lemma all_chars_split_from (cur s : string) :
  Obs.all_chars test cur = true ->
  Obs.all_chars test s = true ->
  Forall (fun w => Obs.all_chars test w = true) (Py.split_from cur s).
Proof.
  revert cur. induction s as [|c s IH]; intros cur Hcur Hs.
  - simpl. unfold Py.flush. destruct cur; constructor; [|constructor].
    now rewrite all_chars_rev_string.
  - cbn [Obs.all_chars] in Hs. apply andb_true_iff in Hs as [Hc Hs].
    cbn [Py.split_from]. destruct (Py.isspace c).
    + apply Forall_app. split; [|now apply IH].
      unfold Py.flush. destruct cur; constructor; [|constructor].
      now rewrite all_chars_rev_string.
    + apply IH; [|assumption]. simpl. now rewrite Hc.
Qed.

Lemma all_chars_join (sep : string) (parts : list string) :
  Obs.all_chars test sep = true ->
  Forall (fun w => Obs.all_chars test w = true) parts ->
  Obs.all_chars test (Py.join sep parts) = true.
Proof.
  intros Hsep H. induction H as [|w rest Hw Hrest IH]; [reflexivity|].
  cbn [Py.join]. destruct rest as [|w' rest']; [assumption|].
  now rewrite !all_chars_app, Hw, Hsep, IH.
Qed.

End Characters.

Section CharacterMembership.

Lemma contains_char (c : ascii) (s : string) :
  Py.contains (String c "") s = Obs.mem_char c s.
Proof.
  induction s as [|a s IH]; [reflexivity|].
  rewrite contains_unfold, IH. simpl.
  now rewrite andb_true_r.
Qed.

Lemma mem_char_all_chars (c : ascii) (s : string) :
  Obs.mem_char c s = negb (Obs.all_chars (fun a => negb (Ascii.eqb c a)) s).
Proof.
  induction s as [|a s IH]; simpl; [reflexivity|].
  rewrite IH. now destruct (Ascii.eqb c a).
Qed.

Lemma absent_all_chars (c : ascii) (s : string) :
  Obs.all_chars (fun a => negb (Ascii.eqb c a)) s = true ->
  Py.contains (String c "") s = false.
Proof. intros H. now rewrite contains_char, mem_char_all_chars, H. Qed.

(** Replacing one character leaves none of it, when the replacement
    holds none. *)
Lemma replace_char_gone (c : ascii) (new s : string) :
  Obs.all_chars (fun a => negb (Ascii.eqb c a)) new = true ->
  Obs.all_chars (fun a => negb (Ascii.eqb c a))
    (Py.replace (String c "") new s) = true.
Proof.
  intros Hnew. unfold Py.replace.
  induction s as [|a s IH]; [reflexivity|].
  cbn [Py.replace_from Py.startswith String.length Nat.sub].
  rewrite andb_true_r.
  destruct (Ascii.eqb c a) eqn:E.
  - now rewrite all_chars_app, Hnew, IH.
  - cbn [Obs.all_chars]. now rewrite E, IH.
Qed.

Lemma replace_char_length (c d : ascii) (s : string) :
  String.length (Py.replace (String c "") (String d "") s) = String.length s.
Proof.
  unfold Py.replace. induction s as [|a s IH]; [reflexivity|].
  cbn [Py.replace_from Py.startswith String.length Nat.sub].
  destruct (Ascii.eqb c a && true); simpl; now rewrite IH.
Qed.

End CharacterMembership.

Section Words.

Lemma word_inv (w : string) :
  Obs.word w = true ->
  Py.truthy w = true /\ Obs.all_chars Obs.nonspace w = true.
Proof. intros H. now apply andb_true_iff in H. Qed.

Lemma truthy_app_l (a b : string) :
  Py.truthy a = true -> Py.truthy (a ++ b) = true.
Proof. now destruct a. Qed.

Lemma truthy_app_r (a b : string) :
  Py.truthy b = true -> Py.truthy (a ++ b) = true.
Proof. now destruct a. Qed.

Lemma truthy_rev_string (acc s : string) :
  Py.truthy (Py.rev_string acc s) = Py.truthy acc || Py.truthy s.
Proof.
  revert acc. induction s as [|c s IH]; intros acc; simpl.
  - now rewrite orb_false_r.
  - rewrite IH. simpl. now rewrite orb_true_r.
Qed.

Lemma rev_string_rev_string (a b s : string) :
  Py.rev_string a (Py.rev_string b s) = Py.rev_string (s ++ a) b.
Proof.
  revert a b. induction s as [|c s IH]; intros a b; [reflexivity|].
  simpl. now rewrite IH.
Qed.

Lemma rev_string_involutive (s : string) :
  Py.rev_string "" (Py.rev_string "" s) = s.
Proof. rewrite rev_string_rev_string. simpl. apply append_nil_r. Qed.

(** Reading a run without white space only adds to the run in hand. *)
Lemma split_from_spaceless (w cur s : string) :
  Obs.all_chars Obs.nonspace w = true ->
  Py.split_from cur (w ++ s) = Py.split_from (Py.rev_string cur w) s.
Proof.
  revert cur. induction w as [|c w IH]; intros cur H; [reflexivity|].
  cbn [Obs.all_chars] in H. apply andb_true_iff in H as [Hc Hw].
  unfold Obs.nonspace in Hc. apply negb_true_iff in Hc.
  simpl. rewrite Hc. now apply IH.
Qed.

Lemma flush_rev_word (w : string) :
  Py.truthy w = true -> Py.flush (Py.rev_string "" w) = [w].
Proof.
  intros H. unfold Py.flush.
  pose proof (truthy_rev_string "" w) as Ht. rewrite H in Ht. simpl in Ht.
  destruct (Py.rev_string "" w) eqn:E; [discriminate|].
  now rewrite <- E, rev_string_involutive.
Qed.

(** Splitting what was joined with single spaces gives the words back. *)
Lemma split_join_words (ws : list string) :
  Forall (fun w => Obs.word w = true) ws ->
  Py.split (Py.join " " ws) = ws.
Proof.
  unfold Py.split. intros H.
  induction H as [|w rest Hw Hrest IH]; [reflexivity|].
  apply word_inv in Hw as [Ht Hc]. cbn [Py.join].
  destruct rest as [|w' rest'].
  - rewrite <- (append_nil_r w) at 1.
    rewrite split_from_spaceless by assumption. simpl.
    now apply flush_rev_word.
  - rewrite split_from_spaceless by assumption.
    change (" " ++ Py.join " " (w' :: rest'))
      with (String " " (Py.join " " (w' :: rest'))).
    cbn [Py.split_from]. change (Py.isspace " ") with true. cbn iota.
    rewrite flush_rev_word by assumption. now rewrite IH.
Qed.

(** The pieces [split] gives are words. *)
Lemma split_from_words (cur s : string) :
  Obs.all_chars Obs.nonspace cur = true ->
  Forall (fun w => Obs.word w = true) (Py.split_from cur s).
Proof.
  assert (Hflush : forall cur, Obs.all_chars Obs.nonspace cur = true ->
            Forall (fun w => Obs.word w = true) (Py.flush cur)).
  { intros [|c t] H; constructor; [|constructor].
    unfold Obs.word.
    rewrite truthy_rev_string, all_chars_rev_string, H. reflexivity. }
  revert cur. induction s as [|c s IH]; intros cur Hcur.
  - now apply Hflush.
  - cbn [Py.split_from]. destruct (Py.isspace c) eqn:E.
    + apply Forall_app. split; [now apply Hflush|now apply IH].
    + apply IH. simpl. unfold Obs.nonspace at 1. now rewrite E, Hcur.
Qed.

Lemma split_words (s : string) :
  Forall (fun w => Obs.word w = true) (Py.split s).
Proof. now apply split_from_words. Qed.

Lemma rstrip_spaceless (w : string) :
  Obs.all_chars Obs.nonspace w = true -> Py.rstrip w = w.
Proof.
  induction w as [|c w IH]; [reflexivity|].
  cbn [Obs.all_chars]. intros H. apply andb_true_iff in H as [Hc Hw].
  unfold Obs.nonspace in Hc. apply negb_true_iff in Hc.
  rewrite rstrip_cons, (IH Hw), Hc. now destruct w.
Qed.

Lemma rstrip_app (x y : string) :
  Py.truthy (Py.rstrip y) = true -> Py.rstrip (x ++ y) = x ++ Py.rstrip y.
Proof.
  intros H. induction x as [|c x IH]; [reflexivity|].
  simpl append. rewrite rstrip_cons, IH.
  now rewrite (truthy_app_r x _ H).
Qed.

Lemma join_words_truthy (w : string) (rest : list string) :
  Py.truthy w = true -> Py.truthy (Py.join " " (w :: rest)) = true.
Proof.
  intros H. cbn [Py.join]. destruct rest; [assumption|].
  now apply truthy_app_l.
Qed.

Lemma rstrip_join_words (ws : list string) :
  Forall (fun w => Obs.word w = true) ws ->
  Py.rstrip (Py.join " " ws) = Py.join " " ws.
Proof.
  intros H. induction H as [|w rest Hw Hrest IH]; [reflexivity|].
  apply word_inv in Hw as [Ht Hc]. cbn [Py.join].
  destruct rest as [|w' rest']; [now apply rstrip_spaceless|].
  inversion Hrest as [|? ? Hw' _]; subst.
  apply word_inv in Hw' as [Ht' _].
  rewrite rstrip_app.
  - change (" " ++ Py.join " " (w' :: rest'))
      with (String " " (Py.join " " (w' :: rest'))).
    rewrite rstrip_cons, IH, (join_words_truthy w' rest' Ht'). reflexivity.
  - change (" " ++ Py.join " " (w' :: rest'))
      with (String " " (Py.join " " (w' :: rest'))).
    rewrite rstrip_cons, IH, (join_words_truthy w' rest' Ht'). reflexivity.
Qed.

Lemma lstrip_join_words (ws : list string) :
  Forall (fun w => Obs.word w = true) ws ->
  Py.lstrip (Py.join " " ws) = Py.join " " ws.
Proof.
  intros H. destruct H as [|w rest Hw Hrest]; [reflexivity|].
  apply word_inv in Hw as [Ht Hc].
  destruct w as [|c w]; [discriminate|].
  cbn [Obs.all_chars] in Hc. apply andb_true_iff in Hc as [Hc _].
  unfold Obs.nonspace in Hc. apply negb_true_iff in Hc.
  cbn [Py.join]. destruct rest; simpl; now rewrite Hc.
Qed.

(** A text of words joined with single spaces has nothing to trim. *)
Lemma strip_join_words (ws : list string) :
  Forall (fun w => Obs.word w = true) ws ->
  Py.strip (Py.join " " ws) = Py.join " " ws.
Proof.
  intros H. unfold Py.strip.
  now rewrite lstrip_join_words, rstrip_join_words.
Qed.

Lemma endswith_unfold (p s : string) :
  Py.endswith p s
  = String.eqb p s
    || match s with
       | EmptyString => false
       | String _ t => Py.endswith p t
       end.
Proof. destruct s; reflexivity. Qed.

Lemma endswith_app (p s : string) : Py.endswith p (s ++ p) = true.
Proof.
  induction s as [|c s IH]; simpl append.
  - now rewrite endswith_unfold, String.eqb_refl.
  - rewrite endswith_unfold, IH. apply orb_true_r.
Qed.

Lemma word_app_period (w : string) :
  Obs.word w = true -> Obs.word (w ++ ".") = true.
Proof.
  intros H. apply word_inv in H as [Ht Hc]. unfold Obs.word.
  rewrite (truthy_app_l _ _ Ht), all_chars_app, Hc.
  reflexivity.
Qed.

(** A period after the last word is a period after the text. *)
Lemma join_app_period (w : string) (rest : list string) :
  Forall (fun w => Obs.word w = true) (w :: rest) ->
  exists w' rest',
    Forall (fun w => Obs.word w = true) (w' :: rest')
    /\ Py.join " " (w :: rest) ++ "." = Py.join " " (w' :: rest').
Proof.
  revert w. induction rest as [|v rest IH]; intros w H.
  - inversion H as [|? ? Hw _]; subst.
    exists (w ++ "."), []. split; [|reflexivity].
    constructor; [now apply word_app_period|constructor].
  - inversion H as [|? ? Hw Hrest]; subst.
    destruct (IH v Hrest) as (v' & rest' & Hall & Heq).
    exists w, (v' :: rest'). split; [now constructor|].
    cbn [Py.join]. rewrite !append_assoc.
    cbn [Py.join] in Heq. now rewrite Heq.
Qed.

End Words.

(** ** The answers of the AI service, cleaned *)

Section CleanResponse.

Import VoiceAssistant.

(** The three replacements of [_clean_response]. *)
Lemma markup_removed (text : string) :
  let cleaned :=
    Py.replace "`" "" (Py.replace "#" "" (Py.replace "*" "" text)) in
  Obs.all_chars (fun a => negb (Ascii.eqb "*" a)) cleaned = true
  /\ Obs.all_chars (fun a => negb (Ascii.eqb "#" a)) cleaned = true
  /\ Obs.all_chars (fun a => negb (Ascii.eqb "`" a)) cleaned = true.
Proof.
  cbv zeta. repeat split.
  - apply all_chars_replace; [reflexivity|].
    apply all_chars_replace; [reflexivity|].
    now apply replace_char_gone.
  - apply all_chars_replace; [reflexivity|].
    now apply replace_char_gone.
  - now apply replace_char_gone.
Qed.

(** What holds of the space, of the period and of every character left
    by the replacements holds of every character of the result. *)
Lemma clean_response_keeps (test : ascii -> bool) (text : string) :
  Py.truthy text = true ->
  test " "%char = true ->
  test "."%char = true ->
  Obs.all_chars test
    (Py.replace "`" "" (Py.replace "#" "" (Py.replace "*" "" text))) = true ->
  Obs.all_chars test (AIClient._clean_response text) = true.
Proof.
  intros Ht Hsp Hdot H. unfold AIClient._clean_response.
  rewrite Ht. cbn [negb].
  set (cleaned := Py.replace "`" "" _) in *.
  assert (Hjoin : Obs.all_chars test (Py.join " " (Py.split cleaned)) = true).
  { apply all_chars_join; [simpl; now rewrite Hsp|].
    now apply all_chars_split_from. }
  apply all_chars_strip.
  destruct (_ && _); [|assumption].
  rewrite all_chars_app, Hjoin. simpl. now rewrite Hdot.
Qed.

(** The result is a text of words joined with single spaces, and ends a
    sentence unless it is empty. *)
Lemma clean_response_shape (text : string) :
  Py.truthy text = true ->
  exists ws,
    Forall (fun w => Obs.word w = true) ws
    /\ AIClient._clean_response text = Py.join " " ws
    /\ (ws = [] \/ Obs.terminal (Py.join " " ws) = true).
Proof.
  intros Ht. unfold AIClient._clean_response. rewrite Ht. cbn [negb].
  set (cleaned := Py.replace "`" "" _).
  pose proof (split_words cleaned) as Hws.
  destruct (Py.split cleaned) as [|w rest] eqn:Esplit.
  { exists []. repeat split; [constructor|now left]. }
  assert (Hw : Py.truthy w = true).
  { inversion Hws as [|? ? Hw _]; subst. now apply word_inv in Hw. }
  rewrite (join_words_truthy w rest Hw). cbn [andb].
  change (Py.endswith "." (Py.join " " (w :: rest))
          || Py.endswith "!" (Py.join " " (w :: rest))
          || Py.endswith "?" (Py.join " " (w :: rest)))
    with (Obs.terminal (Py.join " " (w :: rest))).
  destruct (Obs.terminal (Py.join " " (w :: rest))) eqn:Eterm; cbn [negb].
  - exists (w :: rest). rewrite strip_join_words by assumption. auto.
  - destruct (join_app_period w rest Hws) as (w' & rest' & Hall & Heq).
    exists (w' :: rest'). rewrite Heq, strip_join_words by assumption.
    repeat split; [assumption|]. right.
    rewrite <- Heq. unfold Obs.terminal. now rewrite endswith_app.
Qed.

Lemma clean_response_empty :
  AIClient._clean_response "" = "I'm sorry, I couldn't generate a response.".
Proof. reflexivity. Qed.

(** [_clean_response] leaves none of the characters it removes: no
    asterisk, no hash sign and no backquote is in what it returns. *)
Theorem clean_response_no_markup (text : string) :
  Py.contains "*" (AIClient._clean_response text) = false
  /\ Py.contains "#" (AIClient._clean_response text) = false
  /\ Py.contains "`" (AIClient._clean_response text) = false.
Proof.
  destruct (Py.truthy text) eqn:Ht.
  - destruct (markup_removed text) as (H1 & H2 & H3).
    repeat split; apply absent_all_chars;
      now apply clean_response_keeps.
  - destruct text; [|discriminate]. repeat split.
Qed.

(** What [_clean_response] returns is empty or ends with a period, an
    exclamation mark or a question mark; its white space is single
    spaces between words: collapsing and trimming it again changes
    nothing. *)
Theorem clean_response_sentence (text : string) :
  (AIClient._clean_response text = ""
   \/ Obs.terminal (AIClient._clean_response text) = true)
  /\ Py.join " " (Py.split (AIClient._clean_response text))
     = AIClient._clean_response text
  /\ Py.strip (AIClient._clean_response text) = AIClient._clean_response text.
Proof.
  destruct (Py.truthy text) eqn:Ht.
  - destruct (clean_response_shape text Ht) as (ws & Hws & -> & Hterm).
    split; [|split].
    + destruct Hterm as [->|Hterm]; [now left|now right].
    + now rewrite split_join_words.
    + now apply strip_join_words.
  - destruct text; [|discriminate]. rewrite clean_response_empty.
    split; [now right|split; reflexivity].
Qed.

(** Cleaning what was cleaned changes nothing, unless nothing was left:
    the empty text is answered with the apology. *)
Theorem clean_response_idempotent (text : string) :
  AIClient._clean_response text <> "" ->
  AIClient._clean_response (AIClient._clean_response text)
  = AIClient._clean_response text.
Proof.
  intros Hne.
  destruct (Py.truthy text) eqn:Ht.
  2:{ destruct text; [|discriminate]. reflexivity. }
  destruct (markup_removed text) as (H1 & H2 & H3).
  pose proof (absent_all_chars _ _
                (clean_response_keeps _ text Ht eq_refl eq_refl H1)) as A1.
  pose proof (absent_all_chars _ _
                (clean_response_keeps _ text Ht eq_refl eq_refl H2)) as A2.
  pose proof (absent_all_chars _ _
                (clean_response_keeps _ text Ht eq_refl eq_refl H3)) as A3.
  destruct (clean_response_shape text Ht) as (ws & Hws & Hr & Hterm).
  set (r := AIClient._clean_response text) in *.
  unfold AIClient._clean_response at 1.
  destruct r as [|c r'] eqn:Er; [congruence|]. rewrite <- Er in *.
  replace (Py.truthy r) with true by (rewrite Er; reflexivity).
  cbn [negb].
  rewrite (replace_absent "*" "" r A1), (replace_absent "#" "" r A2),
    (replace_absent "`" "" r A3).
  assert (Hfix : Py.join " " (Py.split r) = r).
  { rewrite Hr. now rewrite split_join_words. }
  assert (Hstrip : Py.strip r = r).
  { rewrite Hr. now apply strip_join_words. }
  assert (Hend : Obs.terminal r = true).
  { destruct Hterm as [->|Hterm]; [|now rewrite Hr].
    rewrite Hr in Er. discriminate. }
  rewrite Hfix.
  change (Py.endswith "." r || Py.endswith "!" r || Py.endswith "?" r)
    with (Obs.terminal r).
  now rewrite Hend, andb_false_r.
Qed.

Lemma clean_response_idempotent_witness :
  AIClient._clean_response (AIClient._clean_response "# So   *many*   words")
  = "So many words.".
Proof.
  rewrite (clean_response_idempotent "# So   *many*   words");
    [reflexivity|discriminate].
Defined.

(** [generate_response] and [get_contextual_response] return, whatever
    the service does, a text without asterisk, hash sign or backquote
    that is empty or ends a sentence; when the service raises, it is the
    apology. *)
Theorem generate_response_clean
  (service : string -> string -> AIClient.reply)
  (prompt model : string) (context : option string) :
  let r := AIClient.generate_response service prompt model context in
  let r' := AIClient.get_contextual_response service prompt context in
  (Py.contains "*" r = false /\ Py.contains "#" r = false
   /\ Py.contains "`" r = false /\ (r = "" \/ Obs.terminal r = true))
  /\ (Py.contains "*" r' = false /\ Py.contains "#" r' = false
      /\ Py.contains "`" r' = false /\ (r' = "" \/ Obs.terminal r' = true))
  /\ ((forall m p, service m p = AIClient.Fails) ->
      r = "I apologize, but I'm having trouble processing your request right now."
      /\ r' = r).
Proof.
  assert (Hclean : forall t,
            Py.contains "*" (AIClient._clean_response t) = false
            /\ Py.contains "#" (AIClient._clean_response t) = false
            /\ Py.contains "`" (AIClient._clean_response t) = false
            /\ (AIClient._clean_response t = ""
                \/ Obs.terminal (AIClient._clean_response t) = true)).
  { intros t. destruct (Py.truthy t) eqn:Ht.
    - destruct (markup_removed t) as (H1 & H2 & H3).
      repeat split;
        try (apply absent_all_chars; now apply clean_response_keeps).
      destruct (clean_response_shape t Ht) as (ws & _ & -> & [->|Hterm]);
        [now left|now right].
    - destruct t; [|discriminate]. repeat split. now right. }
  assert (Hgen : forall p m c,
            let r := AIClient.generate_response service p m c in
            Py.contains "*" r = false /\ Py.contains "#" r = false
            /\ Py.contains "`" r = false /\ (r = "" \/ Obs.terminal r = true)).
  { intros p m c. unfold AIClient.generate_response.
    destruct (service m _) as [|[t|]].
    - repeat split. now right.
    - apply Hclean.
    - apply Hclean. }
  cbv zeta. split; [apply Hgen|]. split; [apply Hgen|].
  intros Hfail. unfold AIClient.get_contextual_response,
    AIClient.generate_response. now rewrite !Hfail.
Qed.

(** What [ai_process] returns holds no asterisk and has nothing to trim,
    whatever the service answers. *)
Theorem ai_process_no_asterisk (w : env) (command : string) :
  Py.contains "*" (ai_process w command) = false
  /\ Py.strip (ai_process w command) = ai_process w command.
Proof.
  unfold ai_process. destruct (client w); cbn [negb]; [|now split].
  destruct (generate_content w _ _) as [text|]; [|now split].
  split; [|apply strip_idem].
  apply absent_all_chars, all_chars_strip. now apply replace_char_gone.
Qed.

End CleanResponse.

(** ** The command cascade: what every command gets *)

Section CascadeMore.

Import VoiceAssistant.

Lemma find_first {A : Type} (f : A -> bool) (pre post : list A) (x : A) :
  (forall e, In e pre -> f e = false) ->
  f x = true ->
  find f (pre ++ x :: post) = Some x.
Proof.
  intros Hpre Hx. induction pre as [|e pre IH]; simpl.
  - now rewrite Hx.
  - rewrite (Hpre e (or_introl eq_refl)). apply IH.
    intros e' He'. apply Hpre. now right.
Qed.

Lemma website_entry_truthy (cmd url message : string) :
  In (cmd, (url, message)) website_commands ->
  Py.truthy cmd = true /\ Py.truthy message = true.
Proof. intros H. each_entry H; now split. Qed.

Lemma contains_truthy (sub s : string) :
  Py.truthy sub = true -> Py.contains sub s = true -> Py.truthy s = true.
Proof. intros Hsub H. destruct s; [now destruct sub|reflexivity]. Qed.

(** A website command is answered before anything else is looked at:
    when the command holds trigger phrases, the first of them in the
    order of the table is announced and opened, whether or not the
    command also starts with "play" or holds an exit phrase. *)
Theorem website_command_first (w : env) (command cmd url message : string)
  (pre post : list (string * (string * string))) :
  website_commands = (pre ++ (cmd, (url, message)) :: post)%list ->
  (forall entry, In entry pre ->
     Py.contains (fst entry) (Spec.normalized command) = false) ->
  Py.contains cmd (Spec.normalized command) = true ->
  process_command w command
  = ([Speak message; OpenBrowser url], Ok "continue").
Proof.
  intros Htable Hpre Hcmd.
  assert (Hin : In (cmd, (url, message)) website_commands).
  { rewrite Htable. apply in_elt. }
  destruct (website_entry_truthy _ _ _ Hin) as [Hc Hm].
  unfold process_command. fold (Spec.normalized command).
  rewrite (contains_truthy _ _ Hc Hcmd). cbn [negb].
  unfold website_match. rewrite Htable.
  rewrite (find_first _ pre post (cmd, (url, message)) Hpre Hcmd).
  now rewrite (speak_truthy _ Hm).
Qed.

Lemma website_command_first_witness :
  process_command Samples.quiet_world "Play the news, then open YouTube and quit"
  = ([Speak "Opening YouTube"; OpenBrowser "https://youtube.com"],
     Ok "continue").
Proof.
  apply (website_command_first Samples.quiet_world _ "open youtube"
           "https://youtube.com" "Opening YouTube"
           [("open google", ("https://google.com", "Opening Google"))]
           [("open instagram", ("https://instagram.com", "Opening Instagram"));
            ("open linkedin", ("https://linkedin.com", "Opening LinkedIn"));
            ("open facebook", ("https://facebook.com", "Opening Facebook"));
            ("open twitter", ("https://twitter.com", "Opening Twitter"));
            ("open reddit", ("https://reddit.com", "Opening Reddit"))]).
  - reflexivity.
  - intros entry H. each_entry H. reflexivity.
  - reflexivity.
Defined.

Lemma get_news_speaks_first (w : env) (category country : string) :
  exists text rest, fst (get_news w category country) = Speak text :: rest.
Proof.
  unfold get_news.
  destruct (newsapi_key w) as [key|]; [|eexists; eexists; reflexivity].
  destruct (negb (Py.truthy key)); [eexists; eexists; reflexivity|].
  destruct (requests_get w _) as [| | |[|a rest]];
    eexists; eexists; reflexivity.
Qed.

Lemma get_news_counts (w : env) (category country : string) :
  Obs.count Obs.is_open (fst (get_news w category country)) = 0
  /\ Obs.count Obs.is_sleep (fst (get_news w category country)) <= 3.
Proof.
  unfold get_news.
  destruct (newsapi_key w) as [key|]; [|split; [reflexivity|cbn; lia]].
  destruct (negb (Py.truthy key)); [split; [reflexivity|cbn; lia]|].
  destruct (requests_get w _) as [| | |[|a rest]];
    try (split; [reflexivity|cbn; lia]).
  cbn [fst]. rewrite speak_truthy by reflexivity.
  destruct (speak_headlines_counts 1 (firstn 3 (a :: rest))) as (_ & H2 & H3).
  unfold Obs.count in *. cbn [app filter Obs.is_open Obs.is_sleep].
  rewrite H2, H3, length_firstn. split; [reflexivity|lia].
Qed.

Lemma play_music_shape (c : string) :
  (exists text rest, fst (play_music c) = Speak text :: rest)
  /\ Obs.count Obs.is_open (fst (play_music c)) <= 1
  /\ Obs.count Obs.is_sleep (fst (play_music c)) = 0.
Proof.
  unfold play_music.
  destruct (negb (Py.truthy _)).
  { split; [eexists; eexists; reflexivity|split; cbn; lia]. }
  destruct (find_song_never_raises (Py.strip (Py.replace "play" "" c)))
    as [r ->].
  destruct r as [url|]; [destruct (Py.truthy url)|];
    (split; [eexists; eexists; reflexivity|split; cbn; lia]).
Qed.

Lemma speak_counts (text : string) :
  Obs.count Obs.is_open (speak text) = 0
  /\ Obs.count Obs.is_sleep (speak text) = 0.
Proof. unfold speak. now destruct (negb (Py.truthy text)). Qed.

(** Every command that is not empty is answered, and with speech first;
    an empty one gets nothing. *)
Theorem process_command_speaks_first (w : env) (command : string) :
  (Spec.normalized command = "" ->
   process_command w command = ([], Ok "continue"))
  /\ (Spec.normalized command <> "" ->
      exists text rest, fst (process_command w command) = Speak text :: rest).
Proof.
  unfold process_command. fold (Spec.normalized command).
  set (c := Spec.normalized command).
  split; [now intros ->|]. intros Hne.
  destruct c as [|a c'] eqn:Ec; [congruence|]. rewrite <- Ec.
  replace (Py.truthy c) with true by now rewrite Ec.
  cbn [negb].
  destruct (website_match c) as [[cmd [url message]]|] eqn:Eweb.
  { apply find_some in Eweb as [Hin _].
    destruct (website_entry_truthy _ _ _ Hin) as [_ Hm].
    rewrite (speak_truthy _ Hm). eexists; eexists; reflexivity. }
  destruct (Py.startswith "play" c); [apply play_music_shape|].
  destruct (Py.contains "news" c); [apply get_news_speaks_first|].
  repeat (match goal with
          | |- context [if ?b then _ else _] => destruct b
          end; [eexists; eexists; reflexivity|]).
  eexists; eexists; reflexivity.
Qed.

Lemma process_command_speaks_first_witness :
  exists text rest,
    fst (process_command Samples.busy_world "  Sports NEWS ")
    = Speak text :: rest.
Proof.
  apply (proj2 (process_command_speaks_first Samples.busy_world
                  "  Sports NEWS ")).
  discriminate.
Defined.

(** A command opens the browser once at most, and only a website
    command or a "play" command does; it pauses three times at most,
    and only a news command does. *)
Theorem process_command_browser_and_pauses (w : env) (command : string) :
  Obs.count Obs.is_open (fst (process_command w command)) <= 1
  /\ Obs.count Obs.is_sleep (fst (process_command w command)) <= 3
  /\ (Spec.no_website_trigger (Spec.normalized command) ->
      Py.startswith "play" (Spec.normalized command) = false ->
      Obs.count Obs.is_open (fst (process_command w command)) = 0)
  /\ (Py.contains "news" (Spec.normalized command) = false ->
      Obs.count Obs.is_sleep (fst (process_command w command)) = 0).
Proof.
  unfold process_command. fold (Spec.normalized command).
  set (c := Spec.normalized command).
  destruct (negb (Py.truthy c)).
  { cbn. split; [lia|split; [lia|split; reflexivity]]. }
  destruct (website_match c) as [[cmd [url message]]|] eqn:Eweb.
  { cbn [fst]. rewrite !count_app.
    destruct (speak_counts message) as [-> ->]. cbn.
    split; [lia|split; [lia|split; [|reflexivity]]].
    intros Hno. now apply website_match_Some in Eweb. }
  destruct (Py.startswith "play" c).
  { destruct (play_music_shape c) as (_ & H1 & H2).
    split; [lia|split; [lia|split; [discriminate|now intros _]]]. }
  destruct (Py.contains "news" c).
  { cbn [fst]. destruct (get_news_counts w (news_category c) "in") as [-> H].
    split; [lia|split; [lia|split; [reflexivity|discriminate]]]. }
  destruct (Py.contains "time" c).
  { cbn [fst]. destruct (speak_counts ("The current time is "
                                       ++ strftime w "%I:%M %p")) as [-> ->].
    split; [lia|split; [lia|split; reflexivity]]. }
  destruct (Py.contains "date" c).
  { cbn [fst]. destruct (speak_counts ("Today is "
                                       ++ strftime w "%B %d, %Y")) as [-> ->].
    split; [lia|split; [lia|split; reflexivity]]. }
  destruct (existsb _ exit_commands).
  { cbn. split; [lia|split; [lia|split; reflexivity]]. }
  cbn [fst]. rewrite !count_app.
  destruct (speak_counts (ai_process w c)) as [-> ->]. cbn.
  split; [lia|split; [lia|split; reflexivity]].
Qed.

Lemma process_command_browser_and_pauses_witness :
  Obs.count Obs.is_open
    (fst (process_command Samples.busy_world "what is the news of the day")) = 0
  /\ Obs.count Obs.is_sleep
       (fst (process_command Samples.busy_world "play perfect")) = 0.
Proof.
  split.
  - apply (process_command_browser_and_pauses Samples.busy_world
             "what is the news of the day"); [|reflexivity].
    intros cmd target H. each_entry H; reflexivity.
  - now apply (process_command_browser_and_pauses Samples.busy_world
                 "play perfect").
Defined.

(** Case and surrounding white space do not count: [find_song] and
    [process_command] give for a text what they give for the text in
    lower case and trimmed, so that the second trimming of the query
    that [process_command] hands to [find_song] changes nothing; and a
    pass of the loop reads the recognised text in lower case. *)
Theorem case_and_margins_do_not_count :
  (forall song_query,
     find_song (Spec.normalized song_query) = find_song song_query)
  /\ (forall w command,
        process_command w (Spec.normalized command)
        = process_command w command)
  /\ (forall dispatch s text w,
        iteration dispatch s (Samples.spoken_turn (Py.lower text) w)
        = iteration dispatch s (Samples.spoken_turn text w)).
Proof.
  split; [|split].
  - intros q. unfold find_song, find_song_in.
    change (Py.strip (Py.lower (Spec.normalized q)))
      with (Spec.normalized (Spec.normalized q)).
    now rewrite normalized_idem.
  - intros w c. unfold process_command.
    change (Py.strip (Py.lower (Spec.normalized c)))
      with (Spec.normalized (Spec.normalized c)).
    now rewrite normalized_idem.
  - intros dispatch s text w. unfold iteration, try_block. cbn.
    now rewrite lower_idem.
Qed.

End CascadeMore.

(** ** The music branch and the AI fallback *)

Section PlayAndAsk.

Import VoiceAssistant.

Lemma find_song_url_truthy (song_query url : string) :
  find_song song_query = Ok (Some url) -> Py.truthy url = true.
Proof.
  unfold find_song, find_song_in.
  set (n := Py.strip (Py.lower song_query)).
  destruct (dict_get music_library n) as [u|] eqn:Eexact.
  { intros H. assert (u = url) by congruence. subst u.
    apply dict_get_In in Eexact. now apply (library_urls_truthy n). }
  destruct (alias_match music_library song_aliases n) as [[u|e]|] eqn:Ealias.
  - intros H. assert (u = url) by congruence. subst u.
    apply alias_match_Some in Ealias as (song & names & _ & _ & Hitem).
    symmetry in Hitem. apply dict_item_Ok in Hitem.
    now apply (library_urls_truthy song).
  - discriminate.
  - intros H.
    assert (Hp : partial_match music_library n = Some url) by congruence.
    apply partial_match_Some in Hp as (name & Hin & _).
    now apply (library_urls_truthy name).
Qed.

(** A command that starts with "play" and holds no website trigger.
    The query is the command with every "play" taken out, trimmed: what
    follows the leading "play" when there is no other.  An empty query
    is asked for; a query that is found is announced and opened; one
    that is not is searched on YouTube, at a URL in which a plus sign
    stands for each space of the query. *)
Theorem play_command (w : env) (command : string) :
  Spec.no_website_trigger (Spec.normalized command) ->
  Py.startswith "play" (Spec.normalized command) = true ->
  let q := Py.strip (Py.replace "play" "" (Spec.normalized command)) in
  (forall rest,
     Spec.normalized command = "play" ++ rest ->
     Py.contains "play" rest = false -> q = Py.strip rest)
  /\ (q = "" ->
      process_command w command
      = ([Speak "Please specify a song to play."], Ok "continue"))
  /\ (forall url,
        q <> "" -> find_song q = Ok (Some url) ->
        process_command w command
        = ([Speak ("Playing " ++ q); OpenBrowser url], Ok "continue"))
  /\ (q <> "" -> find_song q = Ok None ->
      process_command w command
      = ([Speak ("Sorry, I couldn't find " ++ q ++ " in my music library.");
          Speak "Let me search for it on YouTube instead.";
          OpenBrowser ("https://www.youtube.com/results?search_query="
                       ++ Py.replace " " "+" q)],
         Ok "continue"))
  /\ Py.contains " " (Py.replace " " "+" q) = false
  /\ String.length (Py.replace " " "+" q) = String.length q.
Proof.
  intros Hweb Hplay q.
  rewrite (process_command_play w command Hweb Hplay).
  unfold play_music. fold q.
  split; [|split; [|split; [|split; [|split]]]].
  - intros rest Hc Hrest. unfold q. rewrite Hc.
    now rewrite (replace_leading_only "p" "lay" rest Hrest).
  - intros ->. reflexivity.
  - intros url Hq Hfind.
    destruct q as [|a q'] eqn:Eq; [congruence|]. rewrite <- Eq in *.
    replace (Py.truthy q) with true by now rewrite Eq.
    cbn [negb]. rewrite Hfind, (find_song_url_truthy q url Hfind).
    reflexivity.
  - intros Hq Hfind.
    destruct q as [|a q'] eqn:Eq; [congruence|]. rewrite <- Eq in *.
    replace (Py.truthy q) with true by now rewrite Eq.
    cbn [negb]. rewrite Hfind. reflexivity.
  - apply absent_all_chars. now apply replace_char_gone.
  - apply replace_char_length.
Qed.

Lemma play_command_witness :
  process_command Samples.quiet_world "  Play Shape of U"
  = ([Speak "Playing shape of u";
      OpenBrowser "https://open.spotify.com/track/7qiZfU4dY1lWllzX7mPBI3"],
     Ok "continue")
  /\ process_command Samples.quiet_world "play hey jude"
     = ([Speak "Sorry, I couldn't find hey jude in my music library.";
         Speak "Let me search for it on YouTube instead.";
         OpenBrowser "https://www.youtube.com/results?search_query=hey+jude"],
        Ok "continue").
Proof.
  assert (Hweb : forall c, Py.contains "open" c = false ->
                           Spec.no_website_trigger c).
  { intros c Hc cmd target H.
    destruct (Py.contains cmd c) eqn:E; [|reflexivity].
    assert (Hopen : Py.contains "open" cmd = true) by (each_entry H; reflexivity).
    now rewrite (contains_trans _ _ _ Hopen E) in Hc. }
  split.
  - destruct (play_command Samples.quiet_world "  Play Shape of U"
                (Hweb (Spec.normalized "  Play Shape of U") eq_refl)
                eq_refl) as (_ & _ & H & _).
    apply (H "https://open.spotify.com/track/7qiZfU4dY1lWllzX7mPBI3");
      [discriminate|reflexivity].
  - destruct (play_command Samples.quiet_world "play hey jude"
                (Hweb (Spec.normalized "play hey jude") eq_refl)
                eq_refl) as (_ & _ & _ & H & _).
    apply H; [discriminate|reflexivity].
Defined.

(** A command that is nothing else is put to the AI, in lower case and
    trimmed: "Let me think about that..." is spoken, then the answer.
    Without a client the answer is that the AI is not available, and the
    service is not asked; an answer of which nothing is left once the
    asterisks are out is not spoken at all. *)
Theorem ai_fallback (w : env) (command : string) :
  Spec.normalized command <> "" ->
  Spec.no_website_trigger (Spec.normalized command) ->
  Py.startswith "play" (Spec.normalized command) = false ->
  Py.contains "news" (Spec.normalized command) = false ->
  Py.contains "time" (Spec.normalized command) = false ->
  Py.contains "date" (Spec.normalized command) = false ->
  ~ Spec.has_exit_phrase (Spec.normalized command) ->
  process_command w command
  = ((Speak "Let me think about that..."
      :: speak (ai_process w (Spec.normalized command)))%list,
     Ok "continue")
  /\ (client w = false ->
      process_command w command
      = ([Speak "Let me think about that...";
          Speak "AI functionality is not available. Please check your API key."],
         Ok "continue"))
  /\ (forall text,
        client w = true ->
        generate_content w "gemini-2.0-flash-exp"
          (enhanced_prompt (Spec.normalized command)) = Some text ->
        Py.strip (Py.replace "*" "" text) = "" ->
        process_command w command
        = ([Speak "Let me think about that..."], Ok "continue")).
Proof.
  intros Hne Hweb Hplay Hnews Htime Hdate Hexit.
  assert (Hrun : process_command w command
            = ((Speak "Let me think about that..."
                :: speak (ai_process w (Spec.normalized command)))%list,
               Ok "continue")).
  { unfold process_command. fold (Spec.normalized command).
    destruct (Spec.normalized command) as [|a c'] eqn:Ec; [congruence|].
    rewrite <- Ec in *.
    replace (Py.truthy (Spec.normalized command)) with true
      by now rewrite Ec.
    cbn [negb]. apply website_match_None in Hweb.
    rewrite Hweb, Hplay, Hnews, Htime, Hdate.
    destruct (existsb _ exit_commands) eqn:Ee.
    - apply exit_phrase_iff in Ee. contradiction.
    - reflexivity. }
  split; [exact Hrun|split].
  - intros Hc. rewrite Hrun. unfold ai_process. now rewrite Hc.
  - intros text Hc Hg Hempty. rewrite Hrun. unfold ai_process.
    now rewrite Hc, Hg, Hempty.
Qed.

Lemma ai_fallback_witness :
  process_command Samples.offline_world "Tell me a joke"
  = ([Speak "Let me think about that...";
      Speak "AI functionality is not available. Please check your API key."],
     Ok "continue")
  /\ process_command Samples.mute_world "Tell me a joke"
     = ([Speak "Let me think about that..."], Ok "continue").
Proof.
  assert (Hweb : Spec.no_website_trigger (Spec.normalized "Tell me a joke")).
  { intros cmd target H. each_entry H; reflexivity. }
  assert (Hexit : ~ Spec.has_exit_phrase (Spec.normalized "Tell me a joke")).
  { intros (phrase & H & Hc). each_entry H; discriminate Hc. }
  assert (Hne : Spec.normalized "Tell me a joke" <> "") by discriminate.
  split.
  - destruct (ai_fallback Samples.offline_world "Tell me a joke"
                Hne Hweb eq_refl eq_refl eq_refl eq_refl Hexit)
      as (_ & H & _).
    now apply H.
  - destruct (ai_fallback Samples.mute_world "Tell me a joke"
                Hne Hweb eq_refl eq_refl eq_refl eq_refl Hexit)
      as (_ & _ & H).
    now apply (H " ** ").
Defined.

End PlayAndAsk.

(** ** The dialogue loop: counting, leaving, keeping silent *)

Section LoopMore.

Import VoiceAssistant.

Variable dispatch : env -> string -> trace * result string.

Lemma set_errors_set_errors (a b : nat) (s : session) :
  set_errors a (set_errors b s) = set_errors a s.
Proof. reflexivity. Qed.

Lemma iteration_counter_bound (s : session) (t : turn) :
  consecutive_errors s < max_consecutive_errors ->
  consecutive_errors (snd (fst (iteration dispatch s t)))
  < max_consecutive_errors.
Proof.
  intros Hs. unfold iteration, try_block, max_consecutive_errors in *.
  destruct (microphone t) as [text| | | | |]; cbn [listen_for_command];
    try (unfold listen_failed, max_consecutive_errors;
         destruct (Nat.leb_spec 5 (S (consecutive_errors s)));
         cbn; lia).
  destruct (Py.startswith "jarvis" (Py.lower text)); [|cbn; lia].
  destruct (Py.truthy _); [|cbn; lia].
  destruct (dispatch (world t) _) as [tr [res|e]].
  - destruct (String.eqb res "quit"); cbn; lia.
  - destruct e; cbn; lia.
Qed.

(** Between two passes the counter is below [max_consecutive_errors]:
    it starts at zero, and no pass takes it to the threshold without
    taking it back to zero. *)
Theorem counter_stays_below_threshold (turns : list turn) (s : session) :
  consecutive_errors s < max_consecutive_errors ->
  consecutive_errors (snd (fst (loop dispatch s turns)))
  < max_consecutive_errors.
Proof.
  revert s. induction turns as [|t turns IH]; intros s Hs.
  - simpl. now destruct (should_quit s).
  - cbn [loop]. destruct (should_quit s); [exact Hs|].
    pose proof (iteration_counter_bound s t Hs) as Hstep.
    destruct (iteration dispatch s t) as [[tr s'] [|]]; cbn [fst snd] in *.
    + specialize (IH s' Hstep).
      now destruct (loop dispatch s' turns) as [[tr' s''] st].
    + exact Hstep.
Qed.

(** Unsuccessful listens in a row: the notice is spoken at every fifth
    one, counted from the errors already on the counter, and the loop
    goes on. *)
Theorem failed_listens_every_fifth (turns : list turn) (s : session) :
  should_quit s = false ->
  consecutive_errors s < max_consecutive_errors ->
  Forall Spec.listen_fails turns ->
  loop dispatch s turns
  = (Obs.hearing_notices
       ((consecutive_errors s + List.length turns) / max_consecutive_errors),
     set_errors
       ((consecutive_errors s + List.length turns) mod max_consecutive_errors)
       s,
     Running).
Proof.
  unfold max_consecutive_errors.
  revert s. induction turns as [|t turns IH]; intros s Hq Hs Hall.
  - cbn [loop List.length].
    rewrite Hq, Nat.add_0_r, Nat.div_small, Nat.mod_small by lia.
    now destruct s.
  - inversion Hall as [|? ? Ht Hrest]; subst.
    cbn [loop List.length]. rewrite Hq, (iteration_listen_fails dispatch s t Ht).
    unfold listen_failed, max_consecutive_errors.
    destruct (Nat.leb_spec 5 (S (consecutive_errors s))) as [Hfive|Hbelow];
      cbn [fst snd speak Py.truthy negb app].
    + rewrite (IH (set_errors 0 s)); [|exact Hq|simpl; lia|assumption].
      cbn [consecutive_errors set_errors].
      replace (consecutive_errors s + S (List.length turns))
        with (List.length turns + 1 * 5) by lia.
      rewrite Nat.div_add, Nat.Div0.mod_add by lia.
      rewrite Nat.add_1_r. reflexivity.
    + rewrite (IH (set_errors (S (consecutive_errors s)) s));
        [|exact Hq|simpl; lia|assumption].
      cbn [consecutive_errors set_errors].
      replace (consecutive_errors s + S (List.length turns))
        with (S (consecutive_errors s) + List.length turns) by lia.
      reflexivity.
Qed.

Lemma try_block_raises (s s1 : session) (t : turn) (tr : trace) (e : exn) :
  try_block dispatch s t = (tr, s1, Raise e) ->
  (microphone t = Interrupted /\ e = KeyboardInterrupt /\ tr = [] /\ s1 = s)
  \/ (exists text,
        microphone t = Recognized text
        /\ s1 = set_errors 0 s
        /\ dispatch (world t)
             (Py.strip (Py.replace "jarvis" "" (Py.lower text)))
           = (tr, Raise e)).
Proof.
  unfold try_block.
  destruct (microphone t) as [text| | | | |]; cbn [listen_for_command];
    try (destruct (listen_failed s); discriminate).
  - destruct (Py.startswith "jarvis" (Py.lower text)); [|discriminate].
    destruct (Py.truthy _); [|discriminate].
    destruct (dispatch (world t) _) as [tr0 [res|e0]] eqn:Ed.
    + destruct (String.eqb res "quit"); discriminate.
    + intros [= <- <- <-]. right. exists text. auto.
  - intros [= <- <- <-]. left. auto.
Qed.

(** An exception that [except Exception] catches was raised while a
    recognised command was processed, after the counter was set to
    zero: the pass ends with the counter at one and with nothing said
    about it, whatever the count before.  The handler never reaches its
    threshold. *)
Theorem exception_counts_from_zero
  (s s1 : session) (t : turn) (tr : trace) (e : exn) :
  try_block dispatch s t = (tr, s1, Raise e) ->
  is_Exception e = true ->
  iteration dispatch s t = (tr, set_errors 1 s, Next)
  /\ exists text,
       microphone t = Recognized text
       /\ dispatch (world t)
            (Py.strip (Py.replace "jarvis" "" (Py.lower text)))
          = (tr, Raise e).
Proof.
  intros Htry He.
  destruct (try_block_raises s s1 t tr e Htry)
    as [(_ & -> & _)|(text & Hm & -> & Hd)]; [discriminate|].
  split; [|now exists text].
  unfold iteration. rewrite Htry, He. cbn. now rewrite app_nil_r.
Qed.

End LoopMore.

Section LoopMoreWitnesses.

Import VoiceAssistant.

Lemma counter_stays_below_threshold_witness :
  consecutive_errors
    (snd (fst (loop Samples.failing_dispatch Samples.fresh_session
                 [ Samples.silent_turn Samples.quiet_world;
                   Samples.spoken_turn "jarvis hello" Samples.quiet_world;
                   Samples.silent_turn Samples.quiet_world ])))
  < max_consecutive_errors.
Proof.
  apply (counter_stays_below_threshold Samples.failing_dispatch).
  unfold max_consecutive_errors. simpl. lia.
Defined.

Lemma failed_listens_every_fifth_witness :
  loop Samples.echo_dispatch
    {| consecutive_errors := 3; should_quit := false |}
    (repeat (Samples.silent_turn Samples.quiet_world) 8)
  = ([Speak "I'm having trouble hearing you. Please check your microphone.";
      Sleep 2000;
      Speak "I'm having trouble hearing you. Please check your microphone.";
      Sleep 2000],
     {| consecutive_errors := 1; should_quit := false |}, Running).
Proof.
  apply (failed_listens_every_fifth Samples.echo_dispatch
           (repeat (Samples.silent_turn Samples.quiet_world) 8)
           {| consecutive_errors := 3; should_quit := false |}).
  - reflexivity.
  - unfold max_consecutive_errors. simpl. lia.
  - repeat constructor.
Defined.

Lemma exception_counts_from_zero_witness :
  iteration Samples.failing_dispatch
    {| consecutive_errors := 4; should_quit := false |}
    (Samples.spoken_turn "jarvis hello" Samples.quiet_world)
  = ([], {| consecutive_errors := 1; should_quit := false |}, Next).
Proof.
  exact (proj1 (exception_counts_from_zero Samples.failing_dispatch
                  {| consecutive_errors := 4; should_quit := false |}
                  {| consecutive_errors := 0; should_quit := false |}
                  (Samples.spoken_turn "jarvis hello" Samples.quiet_world)
                  [] UnexpectedError eq_refl eq_refl)).
Defined.

End LoopMoreWitnesses.

(** ** The dialogue loop: how it is left, and what is dispatched *)

Section LoopExit.

Import VoiceAssistant.




Lemma loop_cons (dispatch : env -> string -> trace * result string)
  (t : turn) (rest : list turn) (s : session) :
  loop dispatch s (t :: rest)
  = if should_quit s then ([], s, Stopped)
    else
      match iteration dispatch s t with
      | (tr, s', Break) => (tr, s', Stopped)
      | (tr, s', Next) =>
          match loop dispatch s' rest with
          | (tr', s'', st) => ((tr ++ tr')%list, s'', st)
          end
      end.
Proof. reflexivity. Qed.

(** Texts that do not start with "jarvis", whatever else they hold, are
    dropped: nothing is said, nothing is dispatched, the counter is at
    zero and the loop goes on. *)
Theorem without_wake_word_nothing_happens
  (dispatch : env -> string -> trace * result string)
  (t : turn) (turns : list turn) (s : session) :
  should_quit s = false ->
  Forall (fun t => exists text,
            microphone t = Recognized text
            /\ Py.startswith "jarvis" (Py.lower text) = false) (t :: turns) ->
  loop dispatch s (t :: turns) = ([], set_errors 0 s, Running).
Proof.
  revert t s. induction turns as [|t' turns IH]; intros t s Hq Hall;
    inversion Hall as [|? ? (text & Hm & Hw) Hrest]; subst.
  - rewrite loop_cons, Hq.
    rewrite (try_block_no_wake_word dispatch s t text Hm Hw).
    cbn. now rewrite Hq.
  - rewrite loop_cons, Hq.
    rewrite (try_block_no_wake_word dispatch s t text Hm Hw).
    rewrite (IH t' (set_errors 0 s) Hq Hrest). reflexivity.
Qed.

Lemma without_wake_word_nothing_happens_witness :
  loop process_command {| consecutive_errors := 3; should_quit := false |}
    [ Samples.spoken_turn "open google" Samples.quiet_world;
      Samples.spoken_turn " jarvis quit" Samples.quiet_world;
      Samples.spoken_turn "hey Jarvis, play faded" Samples.quiet_world ]
  = ([], {| consecutive_errors := 0; should_quit := false |}, Running).
Proof.
  apply (without_wake_word_nothing_happens process_command).
  - reflexivity.
  - repeat constructor; eexists; split; reflexivity.
Defined.

(** When the recognised text holds "jarvis" at its start and nowhere
    else, the command is what follows, trimmed: an empty one is answered
    with the prompt, any other is handed to the dispatcher. *)
Theorem wake_word_at_start_only
  (dispatch : env -> string -> trace * result string)
  (s : session) (t : turn) (text rest : string) :
  microphone t = Recognized text ->
  Py.lower text = "jarvis" ++ rest ->
  Py.contains "jarvis" rest = false ->
  (Py.strip rest = "" ->
   iteration dispatch s t
   = ([Speak "Yes, how can I help you?"], set_errors 0 s, Next))
  /\ (Py.strip rest <> "" ->
      try_block dispatch s t
      = match dispatch (world t) (Py.strip rest) with
        | (tr, Raise e) => (tr, set_errors 0 s, Raise e)
        | (tr, Ok res) =>
            if String.eqb res "quit"
            then (tr, set_quit (set_errors 0 s), Ok Break)
            else (tr, set_errors 0 s, Ok Next)
        end).
Proof.
  intros Hm Hlow Hrest.
  assert (Hcmd : Py.strip (Py.replace "jarvis" "" (Py.lower text))
                 = Py.strip rest).
  { rewrite Hlow. now rewrite (replace_leading_only "j" "arvis" rest Hrest). }
  assert (Hwake : Py.startswith "jarvis" (Py.lower text) = true).
  { rewrite Hlow. apply startswith_app. }
  split.
  - intros Hempty. unfold iteration, try_block. rewrite Hm.
    cbn [listen_for_command]. now rewrite Hwake, Hcmd, Hempty.
  - intros Hne.
    rewrite (try_block_dispatches dispatch s t text Hm Hwake).
    + now rewrite Hcmd.
    + rewrite Hcmd. now destruct (Py.strip rest).
Qed.

Lemma wake_word_at_start_only_witness :
  iteration process_command Samples.fresh_session
    (Samples.spoken_turn "Jarvis   what time is it " Samples.quiet_world)
  = ([Speak "The current time is 10:30 AM"], Samples.fresh_session, Next).
Proof.
  destruct (wake_word_at_start_only process_command Samples.fresh_session
              (Samples.spoken_turn "Jarvis   what time is it "
                 Samples.quiet_world)
              "Jarvis   what time is it " "   what time is it "
              eq_refl eq_refl eq_refl) as [_ H].
  unfold iteration. rewrite H; [reflexivity|discriminate].
Defined.

End LoopExit.

(** ** The microphone is calibrated once *)

Section CalibrationFacts.

Import VoiceAssistant.

Lemma listen_all_calibrated (attempts : list Calibration.attempt) :
  snd (Calibration.listen_all true attempts) = true
  /\ filter Calibration.is_adjust (fst (Calibration.listen_all true attempts))
     = [].
Proof.
  induction attempts as [|a rest [IH1 IH2]]; [now split|].
  cbn [Calibration.listen_all]. unfold Calibration.listen_for_command.
  destruct (Calibration.microphone_opens a); cbn [negb];
    destruct (Calibration.listen_all true rest) as [ev flag];
    cbn [fst snd] in *; rewrite ?filter_app; now split.
Qed.

(** The ambient noise is measured until it has been measured once:
    after a call in which the microphone opened and the measure
    returned, the flag stays set and no later call measures again,
    whatever happens in it; each call made with the flag set and the
    microphone open listens once and gives what recognition gives.
    Before that, a call that cannot measure returns [None] without
    listening. *)
Theorem calibrated_once (before after : list Calibration.attempt)
  (a : Calibration.attempt) :
  Calibration.microphone_opens a = true ->
  Calibration.calibration_succeeds a = true ->
  snd (Calibration.listen_all false (before ++ a :: after)) = true
  /\ filter Calibration.is_adjust
       (fst (Calibration.listen_all
               (snd (Calibration.listen_all false (before ++ [a]))) after))
     = []
  /\ (forall b, Calibration.microphone_opens b = true ->
        Calibration.listen_for_command true b
        = ([Calibration.Listen 10 10], true,
           listen_for_command (Calibration.hears b)))
  /\ (forall b, Calibration.microphone_opens b = true ->
        Calibration.calibration_succeeds b = false ->
        Calibration.listen_for_command false b
        = ([Calibration.AdjustForAmbientNoise 1], false, Ok None)).
Proof.
  intros Hmic Hcal.
  assert (Hflag : forall rest flag,
            snd (Calibration.listen_all flag (before ++ a :: rest)) = true).
  { intros rest. induction before as [|b before IH]; intros flag.
    - cbn [app Calibration.listen_all].
      unfold Calibration.listen_for_command. rewrite Hmic, Hcal.
      cbn [negb].
      destruct flag;
        destruct (listen_all_calibrated rest) as [H _];
        destruct (Calibration.listen_all true rest); exact H.
    - cbn [app Calibration.listen_all].
      destruct (Calibration.listen_for_command flag b) as [[ev f] r].
      specialize (IH f).
      destruct (Calibration.listen_all f (before ++ a :: rest)); exact IH. }
  split; [apply Hflag|]. split.
  - rewrite (Hflag [] false). apply listen_all_calibrated.
  - split; intros b Hb.
    + unfold Calibration.listen_for_command. now rewrite Hb.
    + intros Hc. unfold Calibration.listen_for_command. now rewrite Hb, Hc.
Qed.

Lemma calibrated_once_witness :
  snd (Calibration.listen_all false
         [ {| Calibration.microphone_opens := false;
              Calibration.calibration_succeeds := true;
              Calibration.hears := Recognized "jarvis" |};
           {| Calibration.microphone_opens := true;
              Calibration.calibration_succeeds := false;
              Calibration.hears := Recognized "jarvis" |};
           {| Calibration.microphone_opens := true;
              Calibration.calibration_succeeds := true;
              Calibration.hears := WaitTimeoutError |};
           {| Calibration.microphone_opens := false;
              Calibration.calibration_succeeds := false;
              Calibration.hears := RequestError |} ])
  = true.
Proof.
  exact (proj1 (calibrated_once
                  [ {| Calibration.microphone_opens := false;
                       Calibration.calibration_succeeds := true;
                       Calibration.hears := Recognized "jarvis" |};
                    {| Calibration.microphone_opens := true;
                       Calibration.calibration_succeeds := false;
                       Calibration.hears := Recognized "jarvis" |} ]
                  [ {| Calibration.microphone_opens := false;
                       Calibration.calibration_succeeds := false;
                       Calibration.hears := RequestError |} ]
                  {| Calibration.microphone_opens := true;
                     Calibration.calibration_succeeds := true;
                     Calibration.hears := WaitTimeoutError |}
                  eq_refl eq_refl)).
Defined.

End CalibrationFacts.

(** ** The voice of the engine *)

Section TtsFacts.

(** [_configure_tts] sets the first voice whose name holds "female",
    in any case, then the rate and the volume; without such a voice
    only the rate and the volume are set; when the voices cannot be
    read nothing is set. *)
Theorem configure_tts_first_female
  (before after : list Tts.voice) (v : Tts.voice) :
  (forall u, In u before ->
     Py.contains "female" (Py.lower (Tts.voice_name u)) = false) ->
  (Py.contains "female" (Py.lower (Tts.voice_name v)) = true ->
   Tts._configure_tts (Some (before ++ v :: after)%list)
   = [Tts.SetVoice (Tts.voice_id v); Tts.SetRate 180; Tts.SetVolume 90])
  /\ Tts._configure_tts (Some before) = [Tts.SetRate 180; Tts.SetVolume 90]
  /\ Tts._configure_tts None = [].
Proof.
  intros Hbefore.
  assert (Hskip : forall rest,
            Tts.prefer_female (before ++ rest) = Tts.prefer_female rest).
  { intros rest. induction before as [|u before IH]; [reflexivity|].
    cbn [app Tts.prefer_female].
    rewrite (Hbefore u (or_introl eq_refl)). apply IH.
    intros u' Hu'. apply Hbefore. now right. }
  split; [|split; [|reflexivity]].
  - intros Hv. unfold Tts._configure_tts. rewrite Hskip.
    cbn [Tts.prefer_female]. now rewrite Hv.
  - unfold Tts._configure_tts.
    rewrite <- (app_nil_r before), Hskip. reflexivity.
Qed.

Lemma configure_tts_first_female_witness :
  Tts._configure_tts
    (Some [ {| Tts.voice_id := "v0"; Tts.voice_name := "David (Male)" |};
            {| Tts.voice_id := "v1"; Tts.voice_name := "Zira FEMALE" |};
            {| Tts.voice_id := "v2"; Tts.voice_name := "female two" |} ])
  = [Tts.SetVoice "v1"; Tts.SetRate 180; Tts.SetVolume 90].
Proof.
  assert (Hbefore : forall u,
            In u [ {| Tts.voice_id := "v0";
                      Tts.voice_name := "David (Male)" |} ] ->
            Py.contains "female" (Py.lower (Tts.voice_name u)) = false).
  { intros u [<-|[]]. reflexivity. }
  exact (proj1 (configure_tts_first_female
                  [ {| Tts.voice_id := "v0";
                       Tts.voice_name := "David (Male)" |} ]
                  [ {| Tts.voice_id := "v2";
                       Tts.voice_name := "female two" |} ]
                  {| Tts.voice_id := "v1"; Tts.voice_name := "Zira FEMALE" |}
                  Hbefore) eq_refl).
Defined.

End TtsFacts.

(** ** The news handler over any reply *)

Section NewsReplies.

Import VoiceAssistant.

Variable render : NewsService.json -> string.

Lemma speak_items_cons (i : nat) fields (rest : list NewsService.json) :
  NewsService.speak_items render i (NewsService.JObject fields :: rest)
  = (Speak ("News " ++ Py.str i ++ ": "
            ++ NewsService.spoken_title render fields)
     :: Sleep 500 :: fst (NewsService.speak_items render (S i) rest),
     snd (NewsService.speak_items render (S i) rest)).
Proof.
  cbn [NewsService.speak_items].
  destruct (NewsService.speak_items render (S i) rest) as [tr ok].
  now rewrite speak_truthy by reflexivity.
Qed.

(** As many headlines as pauses, no browser; all the elements when the
    loop runs to its end, fewer when it does not. *)
Lemma speak_items_counts (items : list NewsService.json) (i : nat) :
  Obs.count Obs.is_speak (fst (NewsService.speak_items render i items))
  = Obs.count Obs.is_sleep (fst (NewsService.speak_items render i items))
  /\ Obs.count Obs.is_open (fst (NewsService.speak_items render i items)) = 0
  /\ (snd (NewsService.speak_items render i items) = true ->
      Obs.count Obs.is_sleep (fst (NewsService.speak_items render i items))
      = List.length items)
  /\ (snd (NewsService.speak_items render i items) = false ->
      Obs.count Obs.is_sleep (fst (NewsService.speak_items render i items))
      < List.length items).
Proof.
  revert i. induction items as [|v rest IH]; intros i.
  - cbn. split; [reflexivity|split; [reflexivity|split]];
      [reflexivity|discriminate].
  - destruct v as [|b|z l|t|l|fields];
      try (cbn; split; [reflexivity|split; [reflexivity|split]];
           [discriminate|lia]).
    rewrite speak_items_cons. cbn [fst snd].
    destruct (IH (S i)) as (H1 & H2 & H3 & H4).
    unfold Obs.count in *.
    cbn [filter Obs.is_speak Obs.is_sleep Obs.is_open List.length].
    split; [now rewrite H1|split; [assumption|split]].
    + intros H. now rewrite (H3 H).
    + intros H. specialize (H4 H). lia.
Qed.

Lemma speak_items_completed (items : list NewsService.json) (i : nat) :
  snd (NewsService.speak_items render i items) = true <-> NewsService.all_objects items.
Proof.
  revert i. induction items as [|v rest IH]; intros i.
  - split; [constructor|reflexivity].
  - destruct v as [|b|z l|t|l|fields];
      try (cbn; split; [discriminate|intros H; now inversion H]).
    rewrite speak_items_cons. cbn [snd]. rewrite IH. split.
    + intros H. now constructor.
    + intros H. now inversion H.
Qed.

Lemma speak_items_nth (items : list NewsService.json) (i k : nat) fields :
  NewsService.all_objects items ->
  nth_error items k = Some (NewsService.JObject fields) ->
  nth_error (fst (NewsService.speak_items render i items)) (2 * k)
  = Some (Speak ("News " ++ Py.str (i + k) ++ ": "
                 ++ NewsService.spoken_title render fields))
  /\ nth_error (fst (NewsService.speak_items render i items)) (S (2 * k))
     = Some (Sleep 500).
Proof.
  intros Hall. revert i k.
  induction Hall as [|v rest Hv Hrest IH]; intros i k Hk.
  - destruct k; discriminate.
  - destruct v as [|b|z l|t|l|f]; try discriminate.
    rewrite speak_items_cons. cbn [fst].
    destruct k as [|k].
    + injection Hk as ->. rewrite Nat.add_0_r. now split.
    + simpl in Hk. destruct (IH (S i) k Hk) as [H1 H2].
      replace (2 * S k) with (S (S (2 * k))) by lia.
      cbn [nth_error].
      replace (i + S k) with (S i + k) by lia. now split.
Qed.

Lemma all_objects_firstn (n : nat) (items : list NewsService.json) :
  NewsService.all_objects items -> NewsService.all_objects (firstn n items).
Proof. apply firstn_Forall. Qed.

(** With a key and a reply whose articles are a list that is not empty
    and whose first three elements are objects, [get_news] returns
    [True] after announcing how many headlines follow, three at most,
    and speaking that many: the element at index [k < 3] is spoken as
    "News k+1", with its title as [str] formats it (a [null] title as
    [str(None)]) or "No title available" without the key, and is
    followed by a pause of half a second; what comes after the third
    element is not read, and no browser is opened. *)
Theorem get_news_headlines (sv : NewsService.service)
  (category country key : string) fields (items : list NewsService.json) :
  NewsService.newsapi_key sv = Some key ->
  Py.truthy key = true ->
  NewsService.requests_get sv (news_url country category key)
  = NewsService.Json (NewsService.JObject fields) ->
  dict_get fields "articles" = Some (NewsService.JList items) ->
  items <> [] ->
  NewsService.all_objects (firstn 3 items) ->
  snd (NewsService.get_news render sv category country) = true
  /\ nth_error (fst (NewsService.get_news render sv category country)) 0
     = Some (Speak ("Here are the top "
                    ++ Py.str (Nat.min 3 (List.length items))
                    ++ " headlines:"))
  /\ Obs.count Obs.is_speak
       (fst (NewsService.get_news render sv category country))
     = S (Nat.min 3 (List.length items))
  /\ Obs.count Obs.is_sleep
       (fst (NewsService.get_news render sv category country))
     = Nat.min 3 (List.length items)
  /\ Obs.count Obs.is_open
       (fst (NewsService.get_news render sv category country)) = 0
  /\ (forall k f, k < 3 ->
        nth_error items k = Some (NewsService.JObject f) ->
        nth_error (fst (NewsService.get_news render sv category country))
          (S (2 * k))
        = Some (Speak ("News " ++ Py.str (S k) ++ ": "
                       ++ NewsService.spoken_title render f))
        /\ nth_error (fst (NewsService.get_news render sv category country))
             (S (S (2 * k)))
           = Some (Sleep 500)).
Proof.
  intros Hkey Htruthy Hget Harticles Hne Hobjects.
  unfold NewsService.get_news.
  rewrite Hkey, Htruthy, Hget, Harticles. cbn [negb].
  assert (Ht : NewsService.truthy (NewsService.JList items) = true)
    by (destruct items; [congruence|reflexivity]).
  rewrite Ht. cbn [negb NewsService.len].
  rewrite (speak_truthy ("Here are the top "
                         ++ Py.str (Nat.min 3 (List.length items))
                         ++ " headlines:") eq_refl).
  pose proof (proj2 (speak_items_completed (firstn 3 items) 1) Hobjects) as Hok.
  destruct (speak_items_counts (firstn 3 items) 1) as (H1 & H2 & H3 & _).
  specialize (H3 Hok). rewrite length_firstn in H3.
  pose proof (fun k f => speak_items_nth (firstn 3 items) 1 k f Hobjects)
    as Hnth.
  destruct (NewsService.speak_items render 1 (firstn 3 items)) as [tr ok].
  cbn [fst snd] in *. subst ok. cbn [fst snd app].
  split; [reflexivity|]. split; [reflexivity|].
  unfold Obs.count in *.
  cbn [filter Obs.is_speak Obs.is_sleep Obs.is_open List.length].
  split; [now rewrite H1, H3|]. split; [assumption|]. split; [assumption|].
  intros k f Hk Hf. cbn [nth_error]. apply Hnth.
  rewrite nth_error_firstn.
  destruct (Nat.ltb_spec k 3); [assumption|lia].
Qed.

End NewsReplies.

Section NewsOutcome.

Import VoiceAssistant.

Variable render : NewsService.json -> string.

(** The cases that end on one notice, with nothing before it. *)
Ltac one_notice notice :=
  intros _; exists [], notice;
  split; [reflexivity|];
  split; [cbn; tauto|];
  split; [cbn; lia|];
  split; [cbn; lia|];
  split; [reflexivity|];
  intros Hbefore; now elim Hbefore.

(** The cases that end on the notice of an unexpected error, after the
    announcement. *)
Ltac announced_then_error n :=
  rewrite (speak_truthy ("Here are the top " ++ Py.str (Nat.min 3 n)
                         ++ " headlines:") eq_refl);
  intros _;
  exists [Speak ("Here are the top " ++ Py.str (Nat.min 3 n)
                 ++ " headlines:")],
    "An error occurred while fetching news.";
  split; [reflexivity|];
  split; [cbn; tauto|];
  split; [cbn; lia|];
  split; [cbn; lia|];
  split; reflexivity.

(** [get_news] returns [True] exactly when a key is configured and the
    reply is an object whose articles are a list that is not empty and
    whose first three elements are objects.  When it returns [False],
    the last thing it does is speak one of its five notices; before
    that it has said nothing, or, when an element of the list was no
    object or the articles were no list, the announcement and at most
    two headlines with their pauses, and the notice is then the one of
    an unexpected error. *)
Theorem get_news_success_iff (sv : NewsService.service)
  (category country : string) :
  (snd (NewsService.get_news render sv category country) = true <->
   exists key fields items,
     NewsService.newsapi_key sv = Some key
     /\ Py.truthy key = true
     /\ NewsService.requests_get sv (news_url country category key)
        = NewsService.Json (NewsService.JObject fields)
     /\ dict_get fields "articles" = Some (NewsService.JList items)
     /\ items <> []
     /\ NewsService.all_objects (firstn 3 items))
  /\ (snd (NewsService.get_news render sv category country) = false ->
      exists before notice,
        fst (NewsService.get_news render sv category country)
        = (before ++ [Speak notice])%list
        /\ In notice NewsService.failure_notices
        /\ Obs.count Obs.is_speak before <= 3
        /\ Obs.count Obs.is_sleep before <= 2
        /\ Obs.count Obs.is_open before = 0
        /\ (before <> [] ->
            notice = "An error occurred while fetching news.")).
Proof.
  unfold NewsService.get_news.
  destruct (NewsService.newsapi_key sv) as [key|] eqn:Ekey.
  2:{ split; [split; [discriminate|]|].
      - intros (k & f & it & Hk & _). discriminate.
      - one_notice "News service is not configured.". }
  assert (Hsame : forall k f it,
            Some key = Some k ->
            NewsService.requests_get sv (news_url country category k)
            = NewsService.Json (NewsService.JObject f) ->
            dict_get f "articles" = Some (NewsService.JList it) ->
            k = key
            /\ NewsService.requests_get sv (news_url country category key)
               = NewsService.Json (NewsService.JObject f)
            /\ dict_get f "articles" = Some (NewsService.JList it)).
  { intros k f it Hk Hg Ha. injection Hk as <-. auto. }
  destruct (Py.truthy key) eqn:Etruthy; cbn [negb].
  2:{ split; [split; [discriminate|]|].
      - intros (k & f & it & Hk & Ht & _). injection Hk as <-. congruence.
      - one_notice "News service is not configured.". }
  destruct (NewsService.requests_get sv (news_url country category key))
    as [| | |data] eqn:Eget.
  { split; [split; [discriminate|]|].
    - intros (k & f & it & Hk & _ & Hg & Ha & _).
      destruct (Hsame k f it Hk Hg Ha) as (_ & H & _). discriminate.
    - one_notice "News service is taking too long to respond.". }
  { split; [split; [discriminate|]|].
    - intros (k & f & it & Hk & _ & Hg & Ha & _).
      destruct (Hsame k f it Hk Hg Ha) as (_ & H & _). discriminate.
    - one_notice "I'm having trouble connecting to the news service.". }
  { split; [split; [discriminate|]|].
    - intros (k & f & it & Hk & _ & Hg & Ha & _).
      destruct (Hsame k f it Hk Hg Ha) as (_ & H & _). discriminate.
    - one_notice "An error occurred while fetching news.". }
  destruct data as [|b|z l|t|l|fields];
    try (split; [split; [discriminate|]|];
         [ intros (k & f & it & Hk & _ & Hg & Ha & _);
           destruct (Hsame k f it Hk Hg Ha) as (_ & H & _); discriminate
         | one_notice "An error occurred while fetching news." ]).
  assert (Hfields : forall k f it,
            Some key = Some k ->
            NewsService.requests_get sv (news_url country category k)
            = NewsService.Json (NewsService.JObject f) ->
            dict_get f "articles" = Some (NewsService.JList it) ->
            dict_get fields "articles" = Some (NewsService.JList it)).
  { intros k f it Hk Hg Ha.
    destruct (Hsame k f it Hk Hg Ha) as (_ & H & H').
    assert (f = fields) by congruence. now subst f. }
  clear Hsame.
  destruct (dict_get fields "articles") as [articles|] eqn:Earticles.
  2:{ cbn [NewsService.truthy negb].
      split; [split; [discriminate|]|].
      - intros (k & f & it & Hk & _ & Hg & Ha & _).
        discriminate (Hfields k f it Hk Hg Ha).
      - one_notice "No news articles found at the moment.". }
  destruct (NewsService.truthy articles) eqn:Earticles_truthy; cbn [negb].
  2:{ split; [split; [discriminate|]|].
      - intros (k & f & it & Hk & _ & Hg & Ha & Hn & _).
        pose proof (Hfields k f it Hk Hg Ha) as H.
        injection H as ->. destruct it; [congruence|discriminate].
      - one_notice "No news articles found at the moment.". }
  destruct articles as [|b|z l|t|items|fields'];
    cbn [NewsService.len]; try discriminate.
  - split; [split; [discriminate|]|].
    + intros (k & f & it & Hk & _ & Hg & Ha & _).
      discriminate (Hfields k f it Hk Hg Ha).
    + one_notice "An error occurred while fetching news.".
  - split; [split; [discriminate|]|].
    + intros (k & f & it & Hk & _ & Hg & Ha & _).
      discriminate (Hfields k f it Hk Hg Ha).
    + one_notice "An error occurred while fetching news.".
  - split; [split; [discriminate|]|].
    + intros (k & f & it & Hk & _ & Hg & Ha & _).
      discriminate (Hfields k f it Hk Hg Ha).
    + cbn [fst snd]. announced_then_error (String.length t).
  - pose proof (speak_items_completed render (firstn 3 items) 1) as Hok.
    destruct (speak_items_counts render (firstn 3 items) 1)
      as (H1 & H2 & _ & H4).
    rewrite length_firstn in H4.
    destruct (NewsService.speak_items render 1 (firstn 3 items))
      as [tr [|]]; cbn [fst snd] in *.
    + split; [split|discriminate]; [|reflexivity].
      intros _. exists key, fields, items.
      repeat split; try assumption.
      * intros ->. discriminate.
      * now apply Hok.
    + split; [split; [discriminate|]|].
      * intros (k & f & it & Hk & _ & Hg & Ha & _ & Ho).
        pose proof (Hfields k f it Hk Hg Ha) as H.
        injection H as <-. apply Hok in Ho. discriminate.
      * rewrite (speak_truthy ("Here are the top "
                               ++ Py.str (Nat.min 3 (List.length items))
                               ++ " headlines:") eq_refl).
        intros _.
        exists (Speak ("Here are the top "
                       ++ Py.str (Nat.min 3 (List.length items))
                       ++ " headlines:") :: tr),
          "An error occurred while fetching news.".
        specialize (H4 eq_refl).
        split; [reflexivity|].
        split; [cbn; tauto|].
        unfold Obs.count in *.
        cbn [filter Obs.is_speak Obs.is_sleep Obs.is_open List.length].
        split; [lia|]. split; [lia|]. split; [assumption|reflexivity].
  - split; [split; [discriminate|]|].
    + intros (k & f & it & Hk & _ & Hg & Ha & _).
      discriminate (Hfields k f it Hk Hg Ha).
    + cbn [fst snd]. announced_then_error (List.length fields').
Qed.

End NewsOutcome.

Section NewsModels.

Import VoiceAssistant.

Variable render : NewsService.json -> string.

(** On a list of objects the loop is the one of [speak_headlines], each
    article with its title as [str] formats it. *)
Lemma speak_items_objects (items : list NewsService.json) (i : nat) :
  NewsService.all_objects items ->
  NewsService.speak_items render i items
  = (speak_headlines i (map (NewsService.as_article render) items), true).
Proof.
  intros Hall. revert i.
  induction Hall as [|v rest Hv Hrest IH]; intros i; [reflexivity|].
  destruct v as [|b|z l|t|l|f]; try discriminate.
  rewrite speak_items_cons, IH. cbn [fst snd map speak_headlines].
  rewrite speak_truthy by reflexivity.
  unfold NewsService.spoken_title, NewsService.as_article. cbn [title].
  now destruct (dict_get f "title").
Qed.

(** [VoiceAssistant.get_news] is [get_news] on the replies whose
    articles are a list with objects for its first three elements. *)
Lemma get_news_agrees (sv : NewsService.service) (w : env)
  (category country key : string) fields (items : list NewsService.json) :
  newsapi_key w = Some key ->
  NewsService.newsapi_key sv = Some key ->
  NewsService.requests_get sv (news_url country category key)
  = NewsService.Json (NewsService.JObject fields) ->
  dict_get fields "articles" = Some (NewsService.JList items) ->
  NewsService.all_objects (firstn 3 items) ->
  requests_get w (news_url country category key)
  = HttpJson (map (NewsService.as_article render) items) ->
  NewsService.get_news render sv category country
  = get_news w category country.
Proof.
  intros Hw Hsv Hget Harticles Hobjects Hcoarse.
  unfold NewsService.get_news, get_news.
  rewrite Hw, Hsv, Hget, Harticles, Hcoarse.
  destruct (negb (Py.truthy key)); [reflexivity|].
  destruct items as [|v rest]; [reflexivity|].
  cbn [NewsService.truthy negb NewsService.len map].
  change (NewsService.as_article render v
          :: map (NewsService.as_article render) rest)
    with (map (NewsService.as_article render) (v :: rest)).
  rewrite firstn_map, length_map.
  now rewrite (speak_items_objects _ 1 Hobjects).
Qed.

End NewsModels.

Section NewsWitnesses.

Import VoiceAssistant.

Lemma get_news_headlines_witness :
  snd (NewsService.get_news NewsService.render_plain
         NewsService.sample_service "general" "in") = true
  /\ nth_error (fst (NewsService.get_news NewsService.render_plain
                       NewsService.sample_service "general" "in")) 3
     = Some (Speak "News 2: None")
  /\ Obs.count Obs.is_speak
       (fst (NewsService.get_news NewsService.render_plain
               NewsService.sample_service "general" "in")) = 4.
Proof.
  assert (Hobjects : NewsService.all_objects
            (firstn 3
               [ NewsService.JObject
                   [("title", NewsService.JString "Rocq 9.3 released")];
                 NewsService.JObject [("title", NewsService.JNull)];
                 NewsService.JObject
                   [("url", NewsService.JString "https://example.org")];
                 NewsService.JNumber false "4" ])).
  { repeat constructor. }
  destruct (get_news_headlines NewsService.render_plain
              NewsService.sample_service "general" "in" "demo-key"
              _ _ eq_refl eq_refl eq_refl eq_refl
              ltac:(discriminate) Hobjects)
    as (H1 & _ & H3 & _ & _ & H6).
  split; [exact H1|]. split; [|exact H3].
  exact (proj1 (H6 1 [("title", NewsService.JNull)] ltac:(lia) eq_refl)).
Defined.

Example get_news_broken_example :
  NewsService.get_news NewsService.render_plain
    NewsService.broken_service "general" "in"
  = ([Speak "Here are the top 3 headlines:";
      Speak "News 1: First"; Sleep 500;
      Speak "An error occurred while fetching news."],
     false).
Proof. reflexivity. Qed.

End NewsWitnesses.

(** ** Exceptions in a row *)

Section ExceptionBurst.

Import VoiceAssistant.


End ExceptionBurst.
